(** * A shallow embedding of [data_gen.py] (FermiHDI NetFlow v5 generator)

    Python exceptions are the constructors of [exn]; stateful methods run
    in a state-and-error monad [M S] whose errors carry the state at the
    point of the raise (Python side effects survive an exception).
    Randomness is CPython's: [randrange a b] is [a + _randbelow (b - a)]
    and [randint a b] is [randrange a (b + 1)]; [_randbelow] is an oracle
    on an abstract generator state. *)

From Stdlib Require Import ZArith String Ascii List Lia Sorted.
From Stdlib Require Import Strings.Byte ZArith.Zbitwise.
From stdpp Require Import base gmap list strings sorting.
Import ListNotations.
Open Scope Z_scope.

(** ** Python exceptions and the state/error monad *)

Inductive exn :=
  | ValueError
  | KeyError
  | IndexError
  | OverflowError
  | ZeroDivisionError
  | NameError
  (** the model's fuel ran out; the Python loop would still be running *)
  | Diverges.

Inductive result (S A : Type) :=
  | Ok (a : A) (s : S)
  | Err (e : exn) (s : S).
Arguments Ok {S A} a s.
Arguments Err {S A} e s.

Definition M (S A : Type) : Type := S -> result S A.

Definition ret {S A} (a : A) : M S A := fun s => Ok a s.
Definition bind {S A B} (m : M S A) (k : A -> M S B) : M S B :=
  fun s => match m s with Ok a s' => k a s' | Err e s' => Err e s' end.
Definition raise {S A} (e : exn) : M S A := fun s => Err e s.
Definition get {S} : M S S := fun s => Ok s s.
Definition put {S} (s : S) : M S unit := fun _ => Ok tt s.
Definition modify {S} (f : S -> S) : M S unit := fun s => Ok tt (f s).

Notation "x <-- m ;; k" := (bind m (fun x => k))
  (at level 100, m at next level, right associativity).
Notation "m ;;; k" := (bind m (fun _ => k))
  (at level 100, right associativity).

(** Python list indexing [l[i]], negative indices included. *)
Definition py_index {A} (l : list A) (i : Z) : exn + A :=
  let n := Z.of_nat (length l) in
  let j := if i <? 0 then i + n else i in
  if (0 <=? j) && (j <? n) then
    match nth_error l (Z.to_nat j) with Some x => inr x | None => inl IndexError end
  else inl IndexError.

Definition lift {S A} (r : exn + A) : M S A :=
  match r with inl e => raise e | inr a => ret a end.

(** [del l[i]] *)
Definition py_del {A} (l : list A) (i : Z) : exn + list A :=
  let n := Z.of_nat (length l) in
  let j := if i <? 0 then i + n else i in
  if (0 <=? j) && (j <? n) then
    inr (firstn (Z.to_nat j) l ++ skipn (S (Z.to_nat j)) l)
  else inl IndexError.

(** ** Bytes *)

Definition byte_of_Z (z : Z) : byte :=
  match Byte.of_N (Z.to_N (Z.land z 255)) with Some b => b | None => x00 end.

(** Big-endian digits of [n] in [len] bytes (no range check). *)
Fixpoint be_digits (len : nat) (n : Z) : list byte :=
  match len with
  | O => []
  | S k => be_digits k (Z.shiftr n 8) ++ [byte_of_Z n]
  end.

(** [int.to_bytes(n, len, byteorder="big")]: [OverflowError] unless
    [0 <= n < 256 ^ len]. *)
Definition int_to_bytes (n : Z) (len : nat) : exn + list byte :=
  if (0 <=? n) && (n <? 2 ^ (8 * Z.of_nat len)) then inr (be_digits len n)
  else inl OverflowError.

Definition hex_val (c : ascii) : option Z :=
  let n := Z.of_nat (nat_of_ascii c) in
  if (48 <=? n) && (n <=? 57) then Some (n - 48)
  else if (97 <=? n) && (n <=? 102) then Some (n - 87)
  else if (65 <=? n) && (n <=? 70) then Some (n - 55)
  else None.

Definition is_py_space (c : ascii) : bool :=
  let n := nat_of_ascii c in
  (n =? 32)%nat || (n =? 9)%nat || (n =? 10)%nat || (n =? 11)%nat
  || (n =? 12)%nat || (n =? 13)%nat.

(** [bytes.fromhex(s)]: ASCII whitespace is skipped before each byte, each
    byte is two hex digits, anything else is a [ValueError]. *)
Fixpoint fromhex_chars (cs : list ascii) : exn + list byte :=
  match cs with
  | [] => inr []
  | c :: rest =>
      if is_py_space c then fromhex_chars rest
      else match rest with
           | d :: rest' =>
               match hex_val c, hex_val d with
               | Some hi, Some lo =>
                   match fromhex_chars rest' with
                   | inr bs => inr (byte_of_Z (16 * hi + lo) :: bs)
                   | inl e => inl e
                   end
               | _, _ => inl ValueError
               end
           | [] => inl ValueError
           end
  end.

Definition bytes_fromhex (s : string) : exn + list byte :=
  fromhex_chars (list_ascii_of_string s).

Definition sum_bind {A B} (r : exn + A) (k : A -> exn + B) : exn + B :=
  match r with inl e => inl e | inr a => k a end.
Notation "x <-? r ;; k" := (sum_bind r (fun x => k))
  (at level 100, r at next level, right associativity).

(** ** Records (TypedDicts) *)

Record FlowRecord := mkFlow {
  timestamp : Z; system_id : string;
  srcaddr : Z; dstaddr : Z; nexthop : Z;
  input : Z; output : Z;
  dPkts : Z; dOctets : Z;
  first : Z; last : Z;
  srcport : Z; dstport : Z;
  tcp_flags : Z; protocol : Z; tos : Z;
  src_as : Z; dst_as : Z;
  src_mask : Z; dst_mask : Z }.

(** [DataGeneration.RECORD_LEN] *)
Definition RECORD_LEN : Z := 75.

(** [DataGeneration.to_bytes] *)
Definition to_bytes (f : FlowRecord) : exn + list byte :=
  b1 <-? int_to_bytes (timestamp f) 6 ;;
  b2 <-? bytes_fromhex (system_id f) ;;
  b3 <-? int_to_bytes (srcaddr f) 4 ;;
  b4 <-? int_to_bytes (dstaddr f) 4 ;;
  b5 <-? int_to_bytes (nexthop f) 4 ;;
  b6 <-? int_to_bytes (dPkts f) 4 ;;
  b7 <-? int_to_bytes (dOctets f) 4 ;;
  b8 <-? int_to_bytes (srcport f) 2 ;;
  b9 <-? int_to_bytes (dstport f) 2 ;;
  b10 <-? int_to_bytes (tcp_flags f) 1 ;;
  b11 <-? int_to_bytes (protocol f) 1 ;;
  b12 <-? int_to_bytes (tos f) 1 ;;
  b13 <-? int_to_bytes (src_as f) 2 ;;
  b14 <-? int_to_bytes (dst_as f) 2 ;;
  b15 <-? int_to_bytes (src_mask f) 4 ;;
  b16 <-? int_to_bytes (dst_mask f) 4 ;;
  b17 <-? int_to_bytes (input f) 2 ;;
  b18 <-? int_to_bytes (output f) 2 ;;
  inr (b1 ++ b2 ++ b3 ++ b4 ++ b5 ++ b6 ++ b7 ++ b8 ++ b9 ++ b10 ++ b11
       ++ b12 ++ b13 ++ b14 ++ b15 ++ b16 ++ b17 ++ b18).

(** [ASNRoute] ([total=False]: [next_hop] and [ifindex] are only present
    once [make_route_table] has filled them in). *)
Record ASNRoute := mkRoute {
  subnet_bits : Z; network_address : Z; broadcast_address : Z;
  next_hop : option Z;
  ip_range_start : Z; ip_range_end : Z;
  asn : Z; country : string; as_description : string;
  ifindex : option Z }.

(** [NetworkInterface] ([total=False]); the fields carry an [ni_] prefix
    because [ASNRoute] already owns the names [ifindex] and [next_hop]. *)
Record NetworkInterface := mkIface {
  ni_ifindex : Z; ni_next_hop : string;
  ni_next_hop_b : option (list byte); ni_next_hop_i : option Z }.

(** A Python [dict] with integer keys: an insertion-ordered association
    list (iteration order and [list(d.keys())] matter to the code). *)
Definition dict (V : Type) := list (Z * V).

Fixpoint dict_get {V} (d : dict V) (k : Z) : option V :=
  match d with
  | [] => None
  | (k', v) :: d' => if k' =? k then Some v else dict_get d' k
  end.

(** [d[k] = v]: an existing key keeps its position. *)
Definition dict_set {V} (d : dict V) (k : Z) (v : V) : dict V :=
  if existsb (fun kv => fst kv =? k) d
  then map (fun kv => if fst kv =? k then (k, v) else kv) d
  else d ++ [(k, v)].

Definition dict_keys {V} (d : dict V) : list Z := map fst d.

(** ** Class constants of [DataGeneration] *)

Definition DEFAULT_PEERING_INTERFACES : list NetworkInterface :=
  [ mkIface 10 "10.0.10.2" None None; mkIface 11 "10.0.20.2" None None;
    mkIface 12 "10.0.30.2" None None; mkIface 13 "10.0.40.2" None None;
    mkIface 14 "10.0.0.2" None None ].
Definition EPHEMERAL_PORTS : Z * Z := (49152, 65535).
Definition INTERNAL_ASN : Z := 65000.
Definition INTERNAL_SUBNET : Z := 24.
Definition INTERNAL_IFINDEX : NetworkInterface :=
  mkIface 100 "10.1.1.2" (Some [x0a; x01; x01; x02]) (Some 167837954).
Definition MAX_JITTER : Z := 6.
Definition MAX_LIGHT_PACKET_BYTES : Z := 4000000.
Definition MIN_LIGHT_PACKET_BYTES : Z := 2000000.
Definition MAX_HEAVY_PACKET_BYTES : Z := 20000000.
Definition MIN_HEAVY_PACKET_BYTES : Z := 4000000.
Definition SERVER_AS_SOURCE_WEIGHT : Z := 85.
Definition SERVER_LATENCY : Z := 15.
Definition SERVER_PORT : list Z := [443; 80; 22].
Definition SERVER_RANGE : string * string := ("10.10.10.10", "10.10.10.100").

(** ** Python builtins used on strings *)

Definition digit_val (c : ascii) : option Z :=
  let n := Z.of_nat (nat_of_ascii c) in
  if (48 <=? n) && (n <=? 57) then Some (n - 48) else None.

Fixpoint digits_acc (cs : list ascii) (acc : Z) : option Z :=
  match cs with
  | [] => Some acc
  | c :: r => match digit_val c with
              | Some d => digits_acc r (10 * acc + d)
              | None => None
              end
  end.

Definition digits_value (cs : list ascii) : option Z :=
  match cs with [] => None | _ => digits_acc cs 0 end.

Fixpoint drop_spaces (cs : list ascii) : list ascii :=
  match cs with
  | c :: r => if is_py_space c then drop_spaces r else cs
  | [] => []
  end.

(** [int(s)] for a decimal string: surrounding whitespace and one sign are
    accepted ([_] digit separators are not modelled). *)
Definition py_int (s : string) : exn + Z :=
  let cs := rev (drop_spaces (rev (drop_spaces (list_ascii_of_string s)))) in
  let r := match cs with
           | c :: rest =>
               if Ascii.eqb c "-"%char then option_map Z.opp (digits_value rest)
               else if Ascii.eqb c "+"%char then digits_value rest
               else digits_value cs
           | [] => None
           end in
  match r with Some z => inr z | None => inl ValueError end.

Fixpoint split_dots (cs : list ascii) : list (list ascii) :=
  match cs with
  | [] => [[]]
  | c :: r =>
      if Ascii.eqb c "."%char then [] :: split_dots r
      else match split_dots r with
           | p :: ps => (c :: p) :: ps
           | [] => [[c]]
           end
  end.

(** One octet of [ipaddress.IPv4Address]: 1 to 3 ASCII digits, no leading
    zero, at most 255. *)
Definition parse_octet (p : list ascii) : exn + Z :=
  match digits_value p with
  | Some v =>
      if (length p <=? 3)%nat && (v <=? 255)
         && negb ((1 <? length p)%nat && (match p with c :: _ => Ascii.eqb c "0"%char | [] => false end))
      then inr v else inl ValueError
  | None => inl ValueError
  end.

(** [str.split(sep)] on a list of characters. *)
Fixpoint split_on (sep : ascii) (cs : list ascii) : list (list ascii) :=
  match cs with
  | [] => [[]]
  | c :: r =>
      if Ascii.eqb c sep then [] :: split_on sep r
      else match split_on sep r with
           | p :: ps => (c :: p) :: ps
           | [] => [[c]]
           end
  end.

(** [IPv4Address(s)._ip] *)
Definition ipv4_int (cs : list ascii) : exn + Z :=
  match split_dots cs with
  | [a; b; c; d] =>
      a' <-? parse_octet a ;; b' <-? parse_octet b ;;
      c' <-? parse_octet c ;; d' <-? parse_octet d ;;
      inr (((a' * 256 + b') * 256 + c') * 256 + d')
  | _ => inl ValueError
  end.

(** A character of [_HEX_DIGITS] and its value. *)
Definition is_hex_char (c : ascii) : bool :=
  existsb (Ascii.eqb c) (list_ascii_of_string "0123456789abcdefABCDEF").

Definition hex_char_val (c : ascii) : Z :=
  let n := Z.of_nat (nat_of_ascii c) in
  if n <=? 57 then n - 48 else if n <=? 70 then n - 55 else n - 87.

(** [IPv6Address._parse_hextet]: hexadecimal digits only, at most four of
    them; [int("", 16)] raises. *)
Definition parse_hextet (p : list ascii) : exn + Z :=
  if negb (forallb is_hex_char p) then inl ValueError
  else if (4 <? length p)%nat then inl ValueError
  else match p with
       | [] => inl ValueError
       | _ => inr (fold_left (fun acc c => 16 * acc + hex_char_val c) p 0)
       end.

(** ['%x' % v] for [0 <= v < 2 ^ 16]. *)
Fixpoint hex_acc (fuel : nat) (v : Z) (acc : list ascii) : list ascii :=
  match fuel with
  | O => acc
  | S f =>
      let d := v mod 16 in
      let acc' := ascii_of_nat (Z.to_nat (if d <? 10 then 48 + d else 87 + d)) :: acc in
      if v <? 16 then acc' else hex_acc f (v / 16) acc'
  end.

Definition py_hex16 (v : Z) : list ascii := hex_acc 4 v [].

(** The [for i in range(1, len(parts) - 1)] loop looking for the one empty
    part of a [::]; [i] is the index of the head of [ps]. *)
Fixpoint find_skip (ps : list (list ascii)) (i : nat) (skip : option nat)
  : exn + option nat :=
  match ps with
  | [] => inr skip
  | p :: ps' =>
      match p with
      | [] => match skip with
              | Some _ => inl ValueError
              | None => find_skip ps' (S i) (Some i)
              end
      | _ => find_skip ps' (S i) skip
      end
  end.

(** [ip_int <<= 16; ip_int |= _parse_hextet(part)] for each part. *)
Fixpoint parse_hextets (ps : list (list ascii)) (acc : Z) : exn + Z :=
  match ps with
  | [] => inr acc
  | p :: ps' => h <-? parse_hextet p ;; parse_hextets ps' (Z.lor (Z.shiftl acc 16) h)
  end.

Definition is_empty_part (p : list ascii) : bool :=
  match p with [] => true | _ => false end.

(** [IPv6Address._ip_int_from_string] *)
Definition ipv6_int (cs : list ascii) : exn + Z :=
  match cs with [] => inl ValueError | _ =>
  let parts0 := split_on ":"%char cs in
  if (length parts0 <? 3)%nat then inl ValueError else
  parts <-? (let lastp := List.last parts0 [] in
             if existsb (Ascii.eqb "."%char) lastp then
               v4 <-? ipv4_int lastp ;;
               inr (removelast parts0 ++ [py_hex16 (Z.land (Z.shiftr v4 16) 65535);
                                          py_hex16 (Z.land v4 65535)])
             else inr parts0) ;;
  let n := length parts in
  if (9 <? n)%nat then inl ValueError else
  skip <-? find_skip (firstn (n - 2) (tl parts)) 1 None ;;
  let first_empty := is_empty_part (hd [] parts) in
  let last_empty := is_empty_part (List.last parts []) in
  hls <-? match skip with
          | Some si =>
              let hi := Z.of_nat si in
              let lo := Z.of_nat n - Z.of_nat si - 1 in
              hi' <-? (if first_empty then (if hi - 1 =? 0 then inr 0 else inl ValueError)
                       else inr hi) ;;
              lo' <-? (if last_empty then (if lo - 1 =? 0 then inr 0 else inl ValueError)
                       else inr lo) ;;
              if 8 - (hi' + lo') <? 1 then inl ValueError else inr (hi', lo', 8 - (hi' + lo'))
          | None =>
              if negb (n =? 8)%nat then inl ValueError
              else if first_empty then inl ValueError
              else if last_empty then inl ValueError
              else inr (Z.of_nat n, 0, 0)
          end ;;
  let '(hi, lo, skipped) := hls in
  ip_hi <-? parse_hextets (firstn (Z.to_nat hi) parts) 0 ;;
  parse_hextets (skipn (n - Z.to_nat lo) parts) (Z.shiftl ip_hi (16 * skipped))
  end.

(** [IPv6Address(s).packed]: no [/]; a scope id after the first [%] must
    be non-empty and hold no other [%]; it does not enter the address. *)
Definition ipv6_packed (cs : list ascii) : exn + list byte :=
  if existsb (Ascii.eqb "/"%char) cs then inl ValueError else
  addr <-? match split_on "%"%char cs with
           | [a] => inr a
           | [a; scope] => if is_empty_part scope then inl ValueError else inr a
           | _ => inl ValueError
           end ;;
  v <-? ipv6_int addr ;;
  int_to_bytes v 16.

(** [ipaddress.ip_address(s).packed] for a string (as in CPython 3.9 and
    later): the four bytes of an [IPv4Address] if [s] is one (four decimal
    octets separated by dots), otherwise the sixteen bytes of an
    [IPv6Address]; [ValueError] if it is neither. *)
Definition ip_packed (s : string) : exn + list byte :=
  let cs := list_ascii_of_string s in
  match split_dots cs with
  | [a; b; c; d] =>
      match a' <-? parse_octet a ;; b' <-? parse_octet b ;;
            c' <-? parse_octet c ;; d' <-? parse_octet d ;;
            inr (map byte_of_Z [a'; b'; c'; d']) with
      | inr bs => inr bs
      | inl _ => ipv6_packed cs
      end
  | _ => ipv6_packed cs
  end.


(** [int.from_bytes(b, "big")] *)
Definition int_from_bytes (bs : list byte) : Z :=
  fold_left (fun acc b => 256 * acc + Z.of_N (Byte.to_N b)) bs 0.

(** [range(a, b)] and [range(a, b, -1)] *)
Definition py_range (a b : Z) : list Z :=
  map (fun i => a + Z.of_nat i) (seq 0 (Z.to_nat (b - a))).
Definition py_range_down (a b : Z) : list Z :=
  map (fun i => a - Z.of_nat i) (seq 0 (Z.to_nat (a - b))).

(** ** The generator object and its random source *)

(** CPython's [Random._randbelow]: the one primitive every draw uses. *)
Class Rng (RS : Type) := randbelow : RS -> Z -> Z * RS.

Inductive event :=
  | LogText (msg : string)
  | LogSelected (x asns_to_select : Z) (asn_text : string)
  | ProgressAdvance (advance : Z).

(** The state the methods touch: the random generator, the log sink, the
    caller's [asn_table] list object (mutated by [random_asns]), the class
    attribute [DEFAULT_PEERING_INTERFACES] (mutated by [make_route_table]),
    the instance fields and the rows written to the two CSV files. *)
Record World (RS : Type) := mkWorld {
  rng : RS;
  log : list event;
  asn_table : list (list string);
  peering : list NetworkInterface;
  route_table : dict ASNRoute;
  server_list : list Z;
  self_system_id : string;
  raw_csv : list FlowRecord;
  sampled_csv : list FlowRecord }.
Arguments mkWorld {RS}.
Arguments rng {RS}. Arguments log {RS}. Arguments asn_table {RS}.
Arguments peering {RS}. Arguments route_table {RS}. Arguments server_list {RS}.
Arguments self_system_id {RS}. Arguments raw_csv {RS}. Arguments sampled_csv {RS}.

Section Setters.
Context {RS : Type}.
Implicit Types w : World RS.
Definition set_rng (g : RS) w := mkWorld g (log w) (asn_table w) (peering w)
  (route_table w) (server_list w) (self_system_id w) (raw_csv w) (sampled_csv w).
Definition add_log (e : event) w := mkWorld (rng w) (log w ++ [e]) (asn_table w)
  (peering w) (route_table w) (server_list w) (self_system_id w) (raw_csv w) (sampled_csv w).
Definition set_asn_table t w := mkWorld (rng w) (log w) t (peering w)
  (route_table w) (server_list w) (self_system_id w) (raw_csv w) (sampled_csv w).
Definition set_peering p w := mkWorld (rng w) (log w) (asn_table w) p
  (route_table w) (server_list w) (self_system_id w) (raw_csv w) (sampled_csv w).
Definition set_route_table r w := mkWorld (rng w) (log w) (asn_table w) (peering w)
  r (server_list w) (self_system_id w) (raw_csv w) (sampled_csv w).
Definition set_server_list l w := mkWorld (rng w) (log w) (asn_table w) (peering w)
  (route_table w) l (self_system_id w) (raw_csv w) (sampled_csv w).
(** [open(..., "w")] of both CSV files truncates them. *)
Definition open_csv_files w := mkWorld (rng w) (log w) (asn_table w) (peering w)
  (route_table w) (server_list w) (self_system_id w) [] [].
(** [raw_flow_csv_writer.writerow] for each row *)
Definition write_raw rows w := mkWorld (rng w) (log w) (asn_table w) (peering w)
  (route_table w) (server_list w) (self_system_id w) (raw_csv w ++ rows) (sampled_csv w).
(** [sampled_flow_csv_writer.writerow] *)
Definition write_sampled row w := mkWorld (rng w) (log w) (asn_table w) (peering w)
  (route_table w) (server_list w) (self_system_id w) (raw_csv w) (sampled_csv w ++ [row]).
End Setters.

Definition opt_raise {A} (e : exn) (o : option A) : exn + A :=
  match o with Some a => inr a | None => inl e end.

(** An exception raised inside [m] is replaced by [e'] (a [finally] clause
    that itself raises). *)
Definition remap_err {S A} (e' : exn) (m : M S A) : M S A :=
  fun s => match m s with Ok a s' => Ok a s' | Err _ s' => Err e' s' end.

(** [subnet_table]: index = number of bits, value = number of addresses. *)
Definition subnet_table_init : list Z :=
  fold_left (fun t i => <[Z.to_nat i := 2 ^ i]> t) (py_range_down 24 7) (repeat 0 25%nat).

Definition row_int (row : list string) (col : Z) : exn + Z :=
  s <-? py_index row col ;; py_int s.

(** The [for sub in range(24, 7, -1)] search of [random_asns]. *)
Fixpoint find_subnet (subs : list Z) (table : list Z) (row : list string) (subnet : Z)
  : exn + Z :=
  match subs with
  | [] => inr subnet
  | sub :: rest =>
      hi <-? row_int row 1 ;;
      lo <-? row_int row 0 ;;
      bound <-? py_index table sub ;;
      if negb (hi - lo >? bound) then inr sub
      else find_subnet rest table row subnet
  end.

(** Lines 441-447 of [generate_flow_record]: (client, server) transfer
    sizes from the heavy-side draw [randrange(0, 100)]. *)
Definition heavy_split (draw heavy light : Z) : Z * Z :=
  if draw >? SERVER_AS_SOURCE_WEIGHT then (heavy, light) else (light, heavy).

(** The local variables of [generate_data]'s loop. *)
Record Loop := mkLoop {
  flow_buffer : gmap Z (list FlowRecord);
  time_index_ms : Z;
  total_flows_made : Z;
  total_sampled_flows_made : Z;
  raw_flows : list FlowRecord }.

(** [flows = flow_buffer[t]; del flow_buffer[t]], or [flows = []] on
    [KeyError]. *)
Definition drain (buf : gmap Z (list FlowRecord)) (t : Z)
  : list FlowRecord * gmap Z (list FlowRecord) :=
  match buf !! t with
  | Some l => (l, delete t buf)
  | None => ([], buf)
  end.

(** [flow_buffer[f["timestamp"]].append(f)], or a new list on [KeyError]. *)
Definition buffer_add (buf : gmap Z (list FlowRecord)) (f : FlowRecord)
  : gmap Z (list FlowRecord) :=
  match buf !! timestamp f with
  | Some l => <[timestamp f := l ++ [f]]> buf
  | None => <[timestamp f := [f]]> buf
  end.

Section Methods.
Context {RS : Type} `{Rng RS}.
#[local] Abbreviation W := (World RS).

(** [random.randrange(a, b)] *)
Definition randrange (a b : Z) : M W Z :=
  if b - a <=? 0 then raise ValueError
  else fun w => let '(v, g) := randbelow (rng w) (b - a) in Ok (a + v) (set_rng g w).

(** [random.randint(a, b)] *)
Definition randint (a b : Z) : M W Z := randrange a (b + 1).

Definition say (e : event) : M W unit := modify (add_log e).

Fixpoint select_routes (xs : list Z) (asns_to_select : Z) (st : list Z)
  (new_table : dict ASNRoute) : M W (dict ASNRoute) :=
  match xs with
  | [] => ret new_table
  | x :: xs' =>
      w <-- get ;;
      i <-- randrange 0 (Z.of_nat (length (asn_table w))) ;;
      row <-- lift (py_index (asn_table w) i) ;;
      subnet <-- lift (find_subnet (py_range_down 24 7) st row 8) ;;
      na <-- lift (row_int row 0) ;;
      ba <-- lift (row_int row 1) ;;
      rs <-- lift (row_int row 0) ;;
      re <-- lift (row_int row 1) ;;
      a <-- lift (row_int row 2) ;;
      c <-- lift (py_index row 3) ;;
      d <-- lift (py_index row 4) ;;
      let route := mkRoute subnet na ba None (rs + 2) (re - 1) a c d None in
      atxt <-- lift (py_index row 2) ;;
      say (LogSelected (x + 1) asns_to_select atxt) ;;;
      w' <-- get ;;
      t' <-- lift (py_del (asn_table w') i) ;;
      modify (set_asn_table t') ;;;
      select_routes xs' asns_to_select st (dict_set new_table (asn route) route)
  end.

(** [DataGeneration.random_asns]; the caller's [asn_table] is the world's. *)
Definition random_asns (asns_to_select : Z) : M W (dict ASNRoute) :=
  w <-- get ;;
  if Z.of_nat (length (asn_table w)) <? asns_to_select then raise ValueError
  else select_routes (py_range 0 asns_to_select) asns_to_select subnet_table_init [].

(** First loop of [make_route_table]: each interface dict is updated in
    place; the result is the loop variable [interface] left bound after
    the loop ([None]: never bound). *)
Fixpoint resolve_interfaces (before after : list NetworkInterface)
  (interface : option NetworkInterface) : M W (option NetworkInterface) :=
  match after with
  | [] => ret interface
  | i :: rest =>
      b <-- lift (ip_packed (ni_next_hop i)) ;;
      let i' := mkIface (ni_ifindex i) (ni_next_hop i) (Some b) (Some (int_from_bytes b)) in
      modify (set_peering (before ++ i' :: rest)) ;;;
      resolve_interfaces (before ++ [i']) rest (Some i')
  end.

(** Second loop of [make_route_table]. *)
Fixpoint assign_next_hops (keys : list Z) (interface : option NetworkInterface)
  (asns : dict ASNRoute) : M W (dict ASNRoute) :=
  match keys with
  | [] => ret asns
  | k :: ks =>
      w <-- get ;;
      idx <-- randrange 0 (Z.of_nat (length (peering w))) ;;
      ni <-- lift (py_index (peering w) idx) ;;
      nh <-- lift (opt_raise KeyError (ni_next_hop_i ni)) ;;
      r <-- lift (opt_raise KeyError (dict_get asns k)) ;;
      let asns1 := dict_set asns k (mkRoute (subnet_bits r) (network_address r)
                     (broadcast_address r) (Some nh) (ip_range_start r) (ip_range_end r)
                     (asn r) (country r) (as_description r) (ifindex r)) in
      li <-- lift (opt_raise NameError interface) ;;
      r1 <-- lift (opt_raise KeyError (dict_get asns1 k)) ;;
      let asns2 := dict_set asns1 k (mkRoute (subnet_bits r1) (network_address r1)
                     (broadcast_address r1) (next_hop r1) (ip_range_start r1) (ip_range_end r1)
                     (asn r1) (country r1) (as_description r1) (Some (ni_ifindex li))) in
      assign_next_hops ks interface asns2
  end.

(** [DataGeneration.make_route_table] *)
Definition make_route_table (asns : dict ASNRoute) : M W (dict ASNRoute) :=
  w <-- get ;;
  interface <-- resolve_interfaces [] (peering w) None ;;
  asns' <-- assign_next_hops (dict_keys asns) interface asns ;;
  modify (set_route_table asns') ;;;
  ret asns'.

(** [DataGeneration.build_server_ip_table] *)
Definition build_server_ip_table (from_ip to_ip : string) : M W (list Z) :=
  b1 <-- lift (ip_packed from_ip) ;;
  b2 <-- lift (ip_packed to_ip) ;;
  let s := int_from_bytes b1 in
  let e := int_from_bytes b2 in
  let se := if s >? e then (e, s) else (s, e) in
  let tbl := py_range (fst se) (snd se + 1) in
  modify (set_server_list tbl) ;;;
  ret tbl.

(** [DataGeneration.random_client]: (ip, next hop, subnet, ASN, ifindex). *)
Definition random_client : M W (Z * Z * Z * Z * Z) :=
  w <-- get ;;
  route_index <-- randrange 0 (Z.of_nat (length (route_table w))) ;;
  key <-- lift (py_index (dict_keys (route_table w)) route_index) ;;
  route <-- lift (opt_raise KeyError (dict_get (route_table w) key)) ;;
  ip <-- randrange (ip_range_start route) (ip_range_end route) ;;
  nh <-- lift (opt_raise KeyError (next_hop route)) ;;
  ifx <-- lift (opt_raise KeyError (ifindex route)) ;;
  ret (ip, nh, subnet_bits route, asn route, ifx).

(** [DataGeneration.random_server] *)
Definition random_server : M W Z :=
  w <-- get ;;
  i <-- randrange 0 (Z.of_nat (length (server_list w))) ;;
  lift (py_index (server_list w) i).

(** [DataGeneration.generate_flow_record] *)
Definition generate_flow_record (time_index : Z) : M W (FlowRecord * FlowRecord) :=
  client <-- random_client ;;
  server <-- random_server ;;
  heavy_transfer_size <-- randint MIN_HEAVY_PACKET_BYTES MAX_HEAVY_PACKET_BYTES ;;
  light_transfer_size <-- randint MIN_LIGHT_PACKET_BYTES MAX_LIGHT_PACKET_BYTES ;;
  draw <-- randrange 0 100 ;;
  let transfers := heavy_split draw heavy_transfer_size light_transfer_size in
  let client_transfer := fst transfers in
  let server_transfer := snd transfers in
  let client_packets := client_transfer / 1200 in
  client_port <-- randint (fst EPHEMERAL_PORTS) (snd EPHEMERAL_PORTS) ;;
  let server_packets := server_transfer / 1200 in
  cdelta <-- randint 1 60000 ;;
  let client_start_time := time_index - cdelta in
  sdelta <-- randint 1 60000 ;;
  let server_start_time := time_index - sdelta in
  pi <-- randint 0 2 ;;
  server_port <-- lift (py_index SERVER_PORT pi) ;;
  w <-- get ;;
  internal_nh <-- lift (opt_raise KeyError (ni_next_hop_i INTERNAL_IFINDEX)) ;;
  let '(cip, cnh, csub, casn, cif) := client in
  let client_flow :=
    mkFlow time_index (self_system_id w) cip server internal_nh
      cif (ni_ifindex INTERNAL_IFINDEX) client_packets client_transfer
      client_start_time time_index client_port server_port 0 6 0
      casn INTERNAL_ASN csub INTERNAL_SUBNET in
  jitter <-- randrange 0 MAX_JITTER ;;
  let server_time := time_index + SERVER_LATENCY + jitter in
  let server_flow :=
    mkFlow server_time (self_system_id w) server cip cnh
      (ni_ifindex INTERNAL_IFINDEX) cif server_packets server_transfer
      server_start_time time_index server_port client_port 0 6 0
      INTERNAL_ASN casn INTERNAL_SUBNET csub in
  ret (client_flow, server_flow).

(** The [while len(flows) < flows_per_ms] loop of one millisecond; [n]
    bounds the iterations (each one appends a record). *)
Fixpoint fill_ms (n : nat) (flows_per_ms t : Z) (flows : list FlowRecord)
  (buf : gmap Z (list FlowRecord)) : M W (list FlowRecord * gmap Z (list FlowRecord)) :=
  match n with
  | O => ret (flows, buf)
  | S n' =>
      if Z.of_nat (length flows) <? flows_per_ms then
        pair <-- generate_flow_record t ;;
        fill_ms n' flows_per_ms t (flows ++ [fst pair]) (buffer_add buf (snd pair))
      else ret (flows, buf)
  end.

(** One iteration of the [for _ in range(1000)] loop: one millisecond. *)
Definition tick (flows_per_ms : Z) (L : Loop) : M W Loop :=
  let t := time_index_ms L in
  let dr := drain (flow_buffer L) t in
  fb <-- fill_ms (Z.to_nat flows_per_ms) flows_per_ms t (fst dr) (snd dr) ;;
  let flows := fst fb in
  modify (write_raw flows) ;;;
  ret (mkLoop (snd fb) (t + 1) (total_flows_made L + Z.of_nat (length flows))
         (total_sampled_flows_made L) (raw_flows L ++ flows)).

Fixpoint ticks (n : nat) (flows_per_ms : Z) (L : Loop) : M W Loop :=
  match n with
  | O => ret L
  | S n' => L' <-- tick flows_per_ms L ;; ticks n' flows_per_ms L'
  end.

(** The sampling step, lines 647-656: [n] iterations of
    [for _ in range(segments)]; returns the updated sampled total. *)
Fixpoint sample_segments (n : nat) (sampling_rate : Z) (raw : list FlowRecord)
  (start_index end_index made : Z) : M W Z :=
  match n with
  | O => ret made
  | S n' =>
      random_flow <-- randint start_index end_index ;;
      let len := Z.of_nat (length raw) in
      let random_flow := if random_flow <? len then random_flow else len - 1 in
      row <-- lift (py_index raw random_flow) ;;
      modify (write_sampled row) ;;;
      sample_segments n' sampling_rate raw (end_index + 1)
        (end_index + sampling_rate - 1) (made + 1)
  end.

(** The sampling of one second's [raw_flows] (lines 647-656). *)
Definition sample_window (segments sampling_rate : Z) (raw : list FlowRecord)
  (made : Z) : M W Z :=
  sample_segments (Z.to_nat segments) sampling_rate raw 0 (sampling_rate - 1) made.

(** The [while total_flows_made < flows_to_make] loop; [fuel] bounds the
    number of seconds simulated. *)
Fixpoint gen_loop (fuel : nat) (flows_to_make flows_per_ms sampling_rate segments fps : Z)
  (L : Loop) : M W Loop :=
  if total_flows_made L <? flows_to_make then
    match fuel with
    | O => raise Diverges
    | S f =>
        L1 <-- ticks 1000 flows_per_ms L ;;
        made <-- sample_window segments sampling_rate (raw_flows L1)
                   (total_sampled_flows_made L1) ;;
        say (ProgressAdvance fps) ;;;
        gen_loop f flows_to_make flows_per_ms sampling_rate segments fps
          (mkLoop (flow_buffer L1) (time_index_ms L1) (total_flows_made L1) made [])
    end
  else ret L.

Definition loop_init : Loop := mkLoop ∅ 60000 0 0 [].

(** [DataGeneration.generate_data] up to its return, with the loop's
    final local state as result. *)
Definition generate_data_run (fuel : nat) (flows_to_make flows_per_ms sampling_rate : Z)
  : M W Loop :=
  let fps := flows_per_ms * 1000 in
  if sampling_rate =? 0 then raise ZeroDivisionError else
  let fps_after_sampling := fps / sampling_rate in
  let fps_after_sampling := if fps_after_sampling >? 0 then fps_after_sampling else 1 in
  let segments := fps / fps_after_sampling in
  say (LogText "Creating files") ;;;
  modify open_csv_files ;;;
  (* an exception here reaches the [finally] clause before [flows] is bound,
     and its [del flows] raises [UnboundLocalError] *)
  remap_err NameError (generate_flow_record 0) ;;;
  say (LogText "Writing csv headers") ;;;
  say (LogText "Looping to make flows") ;;;
  gen_loop fuel flows_to_make flows_per_ms sampling_rate segments fps loop_init.

(** [DataGeneration.generate_data]: (total flows, total sampled flows). *)
Definition generate_data (fuel : nat) (flows_to_make flows_per_ms sampling_rate : Z)
  : M W (Z * Z) :=
  L <-- generate_data_run fuel flows_to_make flows_per_ms sampling_rate ;;
  ret (total_flows_made L, total_sampled_flows_made L).

End Methods.

(** ** Concrete generators and worlds for evaluation *)

(** The generator whose every draw is the lowest value of its range. *)
#[global] Instance min_rng : Rng unit := fun s _ => (0, s).

(** A linear congruential generator (the draws of one concrete run). *)
#[global] Instance lcg_rng : Rng Z :=
  fun s n => (Z.shiftr s 8 mod n, (1103515245 * s + 12345) mod 2 ^ 31).

Definition sample_asn_table : list (list string) :=
  [ ["16777216"; "16777471"; "13335"; "US"; "CLOUDFLARENET"];
    ["16778240"; "16779263"; "38803"; "AU"; "GTELECOM"];
    ["16785408"; "16793599"; "18144"; "JP"; "AS-ENECOM"] ].

Definition fresh_world {RS} (g : RS) : World RS :=
  mkWorld g [] sample_asn_table DEFAULT_PEERING_INTERFACES [] [] "0123456789abcdef0123456789abcdef" [] [].

(** The driver's set-up: [random_asns], [make_route_table],
    [build_server_ip_table]. *)
Definition setup {RS} `{Rng RS} (k : Z) : M (World RS) unit :=
  sel <-- random_asns k ;;
  make_route_table sel ;;;
  build_server_ip_table (fst SERVER_RANGE) (snd SERVER_RANGE) ;;;
  ret tt.

Definition state_of {S A} (r : result S A) : S :=
  match r with Ok _ s => s | Err _ s => s end.

(** The world after the driver's set-up with two ASNs, every draw lowest. *)
Definition demo_world : World unit := state_of (setup 2 (fresh_world tt)).

(** ** Helpers for stating properties *)

(** [f] with its [first] and [last] fields replaced. *)
Definition set_first_last (a b : Z) (f : FlowRecord) : FlowRecord :=
  mkFlow (timestamp f) (system_id f) (srcaddr f) (dstaddr f) (nexthop f)
    (input f) (output f) (dPkts f) (dOctets f) a b (srcport f) (dstport f)
    (tcp_flags f) (protocol f) (tos f) (src_as f) (dst_as f) (src_mask f) (dst_mask f).

(** The integer fields of the binary layout with their byte widths. *)
Definition binary_int_fields (f : FlowRecord) : list (Z * nat) :=
  [(timestamp f, 6%nat); (srcaddr f, 4%nat); (dstaddr f, 4%nat); (nexthop f, 4%nat);
   (dPkts f, 4%nat); (dOctets f, 4%nat); (srcport f, 2%nat); (dstport f, 2%nat);
   (tcp_flags f, 1%nat); (protocol f, 1%nat); (tos f, 1%nat); (src_as f, 2%nat);
   (dst_as f, 2%nat); (src_mask f, 4%nat); (dst_mask f, 4%nat); (input f, 2%nat);
   (output f, 2%nat)].

Definition fits_widths (f : FlowRecord) : Prop :=
  Forall (fun vn => 0 <= fst vn < 2 ^ (8 * Z.of_nat (snd vn))) (binary_int_fields f).

(** A flow record as [generate_flow_record] builds it, with a 32-byte
    system id (64 hex digits). *)
Definition example_flow (sid : string) : FlowRecord :=
  mkFlow 60000 sid 16777218 168430090 167837954 14 100 1666 2000000 0 60000
    49152 443 0 6 0 13335 65000 24 24.

Definition sid_32_bytes : string :=
  "000102030405060708090a0b0c0d0e0f101112131415161718191a1b1c1d1e1f".

(** The ASNs the driver's [random_asns 2] selects when every draw is the
    lowest, and the world it leaves. *)
Definition demo_selected : dict ASNRoute :=
  match random_asns 2 (fresh_world tt) with Ok r _ => r | Err _ _ => [] end.
Definition demo_selected_world : World unit := state_of (random_asns 2 (fresh_world tt)).

(** The buffer only holds keys in [[t, t + 19]], each under its own
    timestamp. *)
Definition window (t : Z) (b : gmap Z (list FlowRecord)) : Prop :=
  forall k l, b !! k = Some l -> t <= k <= t + 19 /\ Forall (fun r => timestamp r = k) l.



(** The index [random_flow] is clamped to, as on line 651. *)
Definition sample_clamp (raw : list FlowRecord) (v : Z) : Z :=
  let len := Z.of_nat (length raw) in if v <? len then v else len - 1.

(** The bounds [start_index], [end_index] of the [j]-th iteration of the
    sampling loop: [0, R - 1] first, then [end + 1, end + R - 1]. *)
Definition segment_lo (R j : Z) : Z := if j =? 0 then 0 else j * (R - 1) + 1.
Definition segment_hi (R j : Z) : Z := (j + 1) * (R - 1).

(** Five distinct raw records. *)
Definition demo_raw : list FlowRecord :=
  map (fun i => set_first_last i i (example_flow sid_32_bytes)) [0; 1; 2; 3; 4].

(** Every successful result of [m] satisfies [Q]. *)
Definition ok_post {S A} (m : M S A) (Q : A -> Prop) : Prop :=
  forall s a s', m s = Ok a s' -> Q a.

(** [m] leaves the rows of the raw CSV file alone, whatever its outcome. *)
Definition keeps_raw {RS A} (m : M (World RS) A) : Prop :=
  forall w, raw_csv (state_of (m w)) = raw_csv w.

(** Every record in the buffer sits under its own timestamp. *)
Definition buf_keyed (b : gmap Z (list FlowRecord)) : Prop :=
  forall k l, b !! k = Some l -> Forall (fun r => timestamp r = k) l.

(** The raw rows written so far are in timestamp order and all precede
    the clock [t]. *)
Definition raw_before (t : Z) (raw : list FlowRecord) : Prop :=
  StronglySorted Z.le (map timestamp raw) /\ Forall (fun r => timestamp r < t) raw.

Definition loop_inv (L : Loop) (raw : list FlowRecord) : Prop :=
  raw_before (time_index_ms L) raw /\ buf_keyed (flow_buffer L).

(** A row of the cleaned ASN table: five columns, the first three decimal. *)
Definition row_wf (row : list string) : Prop :=
  (5 <= length row)%nat /\ (exists a, row_int row 0 = inr a)
  /\ (exists b, row_int row 1 = inr b) /\ (exists c, row_int row 2 = inr c).

(** ** Further functions of the program *)

(** [bytes.hex()]: two lowercase hex digits per byte. *)
Definition hex_digit (n : Z) : ascii :=
  ascii_of_nat (Z.to_nat (if n <? 10 then 48 + n else 87 + n)).

Definition bytes_hex (bs : list byte) : string :=
  string_of_list_ascii
    (flat_map (fun b => let v := Z.of_N (Byte.to_N b) in
                        [hex_digit (v / 16); hex_digit (v mod 16)]) bs).

(** ["{:<32}".format(s)]: [s] padded on the right with spaces to 32
    characters. *)
Definition ljust32 (s : string) : string :=
  s ++ string_of_list_ascii (repeat " "%char (32 - String.length s)).

(** [DataGeneration.__init__]'s choice of [system_id]: the hex of the given
    bytes when they are truthy (non-empty), else the padded hex of a fresh
    [uuid.uuid4()], passed as [uuid_hex]. *)
Definition init_system_id (system_id : option (list byte)) (uuid_hex : string) : string :=
  match system_id with
  | Some (b :: bs) => bytes_hex (b :: bs)
  | _ => ljust32 uuid_hex
  end.

(** Decimal digits of [n >= 0], prepended to [acc]; [fuel] bounds the
    number of digits. *)
Fixpoint dec_chars (fuel : nat) (n : Z) (acc : list ascii) : list ascii :=
  match fuel with
  | O => acc
  | S f =>
      let acc' := ascii_of_nat (Z.to_nat (48 + n mod 10)) :: acc in
      if n <? 10 then acc' else dec_chars f (n / 10) acc'
  end.

(** [str(n)] for an integer [n >= 0]. *)
Definition py_str_nonneg (n : Z) : string :=
  string_of_list_ascii (dec_chars (S (Z.to_nat (Z.log2 n))) n []).

Definition byte_val (b : byte) : Z := Z.of_N (Byte.to_N b).

(** [Graphing.ip_int_to_string] *)
Definition ip_int_to_string (ip : Z) : exn + string :=
  ip_bytes <-? int_to_bytes ip 4 ;;
  b0 <-? py_index ip_bytes 0 ;;
  b1 <-? py_index ip_bytes 1 ;;
  b2 <-? py_index ip_bytes 2 ;;
  b3 <-? py_index ip_bytes 3 ;;
  inr (py_str_nonneg (byte_val b0) ++ "." ++ py_str_nonneg (byte_val b1) ++ "."
       ++ py_str_nonneg (byte_val b2) ++ "." ++ py_str_nonneg (byte_val b3))%string.

Definition no_dot (cs : list ascii) : bool := forallb (fun c => negb (Ascii.eqb c "."%char)) cs.

(** [Graphing.get_unit_size] *)
Definition get_unit_size (max_unit : Z) : Z * string :=
  if max_unit >? 1000000000000000 then (1000000000000000000, "Ebps"%string)
  else if max_unit >? 1000000000000 then (1000000000000000, "Tbps"%string)
  else if max_unit >? 1000000000 then (1000000000000, "Gbps"%string)
  else if max_unit >? 1000000 then (1000000000, "Mbps"%string)
  else if max_unit >? 1000 then (1000000, "kbps"%string)
  else (1000, "bps"%string).

(** The driver's flow counts (the [if not args.reports_only] block of
    [genrate_flows.py]): (total_flows_to_make, flows_per_ms). *)
Definition driver_flow_counts (reports_only : bool) (time fps : Z) : Z * Z :=
  let total_flows_to_make := 0 in
  let flows_per_ms := 1 in
  if negb reports_only then
    let flows_per_ms := fps / 1000 in
    let flows_per_ms := if flows_per_ms >? 0 then flows_per_ms else 1 in
    (time * 1000 * flows_per_ms, flows_per_ms)
  else (total_flows_to_make, flows_per_ms).

(** [LoggingWindow.__rich_console__]: [while len(self.logs) > height - 2:
    self.logs.pop(0)]; the remaining logs are the ones shown. [fuel]
    bounds the iterations. *)
Fixpoint trim_logs {A} (fuel : nat) (height : Z) (logs : list A) : exn + list A :=
  match fuel with
  | O => inl Diverges
  | S f =>
      if Z.of_nat (length logs) >? height - 2 then
        match logs with
        | [] => inl IndexError
        | _ :: rest => trim_logs f height rest
        end
      else inr logs
  end.

Definition render_logs {A} (height : Z) (logs : list A) : exn + list A :=
  trim_logs (S (S (length logs))) height logs.

(** A route whose fields fit the widths [to_bytes] gives them. *)
Definition route_fits (r : ASNRoute) : Prop :=
  0 <= ip_range_start r /\ ip_range_end r <= 2 ^ 32
  /\ match next_hop r with Some nh => 0 <= nh < 2 ^ 32 | None => True end
  /\ match ifindex r with Some i => 0 <= i < 2 ^ 16 | None => True end
  /\ 0 <= subnet_bits r < 2 ^ 32 /\ 0 <= asn r < 2 ^ 16.

(** A route [random_asns] built from a row of [rows], stored under its
    ASN. *)
Definition row_route (rows : list (list string)) (key : Z) (v : ASNRoute) : Prop :=
  key = asn v /\ ip_range_start v = network_address v + 2
  /\ ip_range_end v = broadcast_address v - 1 /\ next_hop v = None /\ ifindex v = None
  /\ exists row, In row rows /\ row_int row 0 = inr (network_address v)
       /\ row_int row 1 = inr (broadcast_address v) /\ row_int row 2 = inr (asn v)
       /\ py_index row 3 = inr (country v) /\ py_index row 4 = inr (as_description v).

(** [v] carries the data of [v0]: everything but [next_hop] and
    [ifindex]. *)
Definition same_route_data (v v0 : ASNRoute) : Prop :=
  subnet_bits v = subnet_bits v0 /\ network_address v = network_address v0
  /\ broadcast_address v = broadcast_address v0 /\ ip_range_start v = ip_range_start v0
  /\ ip_range_end v = ip_range_end v0 /\ asn v = asn v0 /\ country v = country v0
  /\ as_description v = as_description v0.

(** An interface entry before and after the resolution loop of
    [make_route_table]. *)
Definition resolved_iface (i i' : NetworkInterface) : Prop :=
  ni_ifindex i' = ni_ifindex i /\ ni_next_hop i' = ni_next_hop i
  /\ exists b, ip_packed (ni_next_hop i) = inr b /\ ni_next_hop_b i' = Some b
       /\ ni_next_hop_i i' = Some (int_from_bytes b).

(** Whatever its outcome, [m] changes nothing but the random source. *)
Definition rng_only {RS A} (m : M (World RS) A) : Prop :=
  forall w, exists g, state_of (m w) = set_rng g w.


(** The [if]/[elif] chain of the cleaning loop of [get_asns] for one row:
    the reason it is dropped, or [None] when it is kept. *)
Definition drop_reason (row : list string) : exn + option string :=
  r4 <-? py_index row 4 ;;
  if String.eqb r4 "Not routed" then inr (Some "Not routed")
  else if String.eqb r4 "-Reserved AS-" then inr (Some "Reserved AS")
  else if String.prefix "DNIC-" r4 then inr (Some "DNIC AS")
  else
    a <-? row_int row 2 ;;
    if a >? 65535 then inr (Some "Private AS")
    (* [int(ip2asn[index][2])] is evaluated again, to the same value *)
    else if a =? 0 then inr (Some "AS 0")
    else
      hi <-? row_int row 1 ;;
      lo <-? row_int row 0 ;;
      if hi <? lo + 254 then inr (Some "Non Routable AS") else inr None.

(** The [while index > 0] loop of [get_asns], from [index] down to 1, with
    the [dropped] counter and the log messages. *)
Fixpoint clean_loop (index : nat) (ip2asn : list (list string)) (dropped : Z)
  (logs : list string) : exn + (list (list string) * Z * list string) :=
  match index with
  | O => inr (ip2asn, dropped, logs)
  | S i =>
      row <-? py_index ip2asn (Z.of_nat index) ;;
      reason <-? drop_reason row ;;
      match reason with
      | Some why =>
          asn_text <-? py_index row 2 ;;
          rest <-? py_del ip2asn (Z.of_nat index) ;;
          clean_loop i rest (dropped + 1)
            (logs ++ [("Dropping ASN " ++ asn_text ++ " - " ++ why)%string])
      | None => clean_loop i ip2asn dropped logs
      end
  end.

(** The cleaning of [get_asns]: [index = routes_count - 1]. *)
Definition clean_asns (ip2asn : list (list string))
  : exn + (list (list string) * Z * list string) :=
  clean_loop (Z.to_nat (Z.of_nat (length ip2asn) - 1)) ip2asn 0 [].

(** A row the chain keeps. *)
Definition kept_row (row : list string) : bool :=
  match drop_reason row with inr None => true | _ => false end.

(** An [ip2asn] table as [get_asns] reads it: a first row the loop never
    looks at, two routed rows and two the cleaning drops. *)
Definition sample_ip2asn : list (list string) :=
  [ ["0"; "16777215"; "0"; "None"; "Not routed"];
    ["16777216"; "16777471"; "13335"; "US"; "CLOUDFLARENET"];
    ["16777472"; "16777727"; "0"; "None"; "Not routed"];
    ["16778240"; "16779263"; "38803"; "AU"; "GTELECOM"];
    ["16779264"; "16779300"; "4608"; "AU"; "APNIC-SERVICES"] ].

(** The set-up of the generator: everything [generate_data] only reads. *)
Definition world_cfg {RS} (w : World RS) :=
  (asn_table w, peering w, route_table w, server_list w, self_system_id w).

(** Whatever its outcome, [m] leaves the set-up of the generator alone. *)
Definition keeps_cfg {RS A} (m : M (World RS) A) : Prop :=
  forall w, world_cfg (state_of (m w)) = world_cfg w.

(** ==================================================================== *)
(** * Properties *)

Lemma inr_eq {A B : Type} (x y : B) : @inr A B x = inr y -> x = y.
Proof. congruence. Qed.

Lemma be_digits_length (n : nat) (v : Z) : length (be_digits n v) = n.
Proof.
  revert v; induction n as [|n IH]; intros v; [reflexivity|].
  cbn [be_digits]. rewrite length_app, IH. simpl. lia.
Qed.

Lemma int_to_bytes_fit (v : Z) (n : nat) :
  0 <= v < 2 ^ (8 * Z.of_nat n) -> int_to_bytes v n = inr (be_digits n v).
Proof.
  intros [H0 H1]. unfold int_to_bytes.
  rewrite (proj2 (Z.leb_le _ _) H0), (proj2 (Z.ltb_lt _ _) H1). reflexivity.
Qed.

(** C10: [to_bytes] does not read [first] or [last]: two records that
    differ only in those fields serialise to the same bytes (or fail
    alike). *)
Theorem to_bytes_ignores_first_last (f : FlowRecord) (a b : Z) :
  to_bytes (set_first_last a b f) = to_bytes f.
Proof. destruct f; reflexivity. Qed.

(** C2 (amended): when every integer field fits its width and the hex
    [system_id] decodes to [sid], [to_bytes] is the big-endian
    concatenation timestamp(6) · sid · srcaddr(4) · dstaddr(4) ·
    nexthop(4) · dPkts(4) · dOctets(4) · srcport(2) · dstport(2) ·
    tcp_flags(1) · protocol(1) · tos(1) · src_as(2) · dst_as(2) ·
    src_mask(4) · dst_mask(4) · input(2) · output(2) of 18 fields
    ([first] and [last] are absent), and its length is [49 + |sid|]. *)
Theorem to_bytes_layout (f : FlowRecord) (sid : list byte)
  (Hsid : bytes_fromhex (system_id f) = inr sid) (Hfit : fits_widths f) :
  to_bytes f =
    inr (be_digits 6 (timestamp f) ++ sid ++ be_digits 4 (srcaddr f)
         ++ be_digits 4 (dstaddr f) ++ be_digits 4 (nexthop f)
         ++ be_digits 4 (dPkts f) ++ be_digits 4 (dOctets f)
         ++ be_digits 2 (srcport f) ++ be_digits 2 (dstport f)
         ++ be_digits 1 (tcp_flags f) ++ be_digits 1 (protocol f)
         ++ be_digits 1 (tos f) ++ be_digits 2 (src_as f) ++ be_digits 2 (dst_as f)
         ++ be_digits 4 (src_mask f) ++ be_digits 4 (dst_mask f)
         ++ be_digits 2 (input f) ++ be_digits 2 (output f))
  /\ (forall bs, to_bytes f = inr bs -> length bs = (49 + length sid)%nat).
Proof.
  unfold fits_widths, binary_int_fields in Hfit.
  repeat match goal with
         | H : Forall _ (_ :: _) |- _ => apply Forall_cons_iff in H; destruct H
         end.
  cbn [fst snd] in *.
  assert (E : to_bytes f =
    inr (be_digits 6 (timestamp f) ++ sid ++ be_digits 4 (srcaddr f)
         ++ be_digits 4 (dstaddr f) ++ be_digits 4 (nexthop f)
         ++ be_digits 4 (dPkts f) ++ be_digits 4 (dOctets f)
         ++ be_digits 2 (srcport f) ++ be_digits 2 (dstport f)
         ++ be_digits 1 (tcp_flags f) ++ be_digits 1 (protocol f)
         ++ be_digits 1 (tos f) ++ be_digits 2 (src_as f) ++ be_digits 2 (dst_as f)
         ++ be_digits 4 (src_mask f) ++ be_digits 4 (dst_mask f)
         ++ be_digits 2 (input f) ++ be_digits 2 (output f))).
  { unfold to_bytes. rewrite Hsid.
    repeat (rewrite int_to_bytes_fit by assumption). reflexivity. }
  split; [exact E|].
  intros bs Hbs. rewrite E in Hbs. apply inr_eq in Hbs. subst bs.
  repeat rewrite length_app. repeat rewrite be_digits_length. lia.
Qed.


Lemma to_bytes_layout_witness :
  bytes_fromhex (system_id (example_flow sid_32_bytes)) =
    inr (map (fun i => byte_of_Z (Z.of_nat i)) (seq 0 32))
  /\ fits_widths (example_flow sid_32_bytes)
  /\ (forall bs, to_bytes (example_flow sid_32_bytes) = inr bs -> length bs = 81%nat).
Proof.
  assert (Hs : bytes_fromhex (system_id (example_flow sid_32_bytes)) =
                 inr (map (fun i => byte_of_Z (Z.of_nat i)) (seq 0 32)))
    by (vm_compute; reflexivity).
  assert (Hf : fits_widths (example_flow sid_32_bytes))
    by (unfold fits_widths, binary_int_fields; simpl; repeat constructor; simpl; lia).
  split; [exact Hs|]. split; [exact Hf|].
  intros bs Hbs. rewrite (proj2 (to_bytes_layout _ _ Hs Hf) bs Hbs). reflexivity.
Defined.

(** C2, refuted: with a 32-byte system id the record is 81 bytes, with the
    16-byte id the generator makes by default (32 hex digits) it is 65
    bytes; neither is [RECORD_LEN]. *)
Lemma to_bytes_length_not_RECORD_LEN :
  exists bs32 bs16,
    to_bytes (example_flow sid_32_bytes) = inr bs32 /\ length bs32 = 81%nat /\
    to_bytes (example_flow "0123456789abcdef0123456789abcdef") = inr bs16 /\
    length bs16 = 65%nat /\
    Z.of_nat (length bs32) <> RECORD_LEN /\ Z.of_nat (length bs16) <> RECORD_LEN.
Proof.
  do 2 eexists. split; [vm_compute; reflexivity|].
  split; [reflexivity|]. split; [vm_compute; reflexivity|].
  split; [reflexivity|]. split; unfold RECORD_LEN; simpl; lia.
Qed.

(** C6: the heavy side is the client exactly for the draws 86..99 of
    [randrange(0, 100)], 14 of the 100 equally likely values (14%), and the
    server for the other 86 (0..85). *)
Theorem heavy_side_draws :
  filter (fun d => fst (heavy_split d 1 0) =? 1) (py_range 0 100) = py_range 86 100
  /\ length (py_range 86 100) = 14%nat
  /\ filter (fun d => snd (heavy_split d 1 0) =? 1) (py_range 0 100) = py_range 0 86
  /\ (forall d heavy light, heavy_split d heavy light =
        if 85 <? d then (heavy, light) else (light, heavy)).
Proof.
  split; [vm_compute; reflexivity|]. split; [reflexivity|].
  split; [vm_compute; reflexivity|].
  intros d heavy light. unfold heavy_split, SERVER_AS_SOURCE_WEIGHT.
  rewrite Z.gtb_ltb. reflexivity.
Qed.

(** The subnet search of [random_asns], evaluated. *)
Lemma subnet_table_values :
  subnet_table_init =
    [0;0;0;0;0;0;0;0;2^8;2^9;2^10;2^11;2^12;2^13;2^14;2^15;2^16;2^17;2^18;
     2^19;2^20;2^21;2^22;2^23;2^24].
Proof. vm_compute. reflexivity. Qed.

(** The subnet the search of [random_asns] computes for a row. *)
Lemma find_subnet_value (row : list string) (lo hi : Z)
  (Hlo : row_int row 0 = inr lo) (Hhi : row_int row 1 = inr hi) :
  find_subnet (py_range_down 24 7) subnet_table_init row 8 =
    inr (if hi - lo <=? 2 ^ 24 then 24 else 8).
Proof.
  rewrite subnet_table_values.
  change (py_range_down 24 7) with
    [24;23;22;21;20;19;18;17;16;15;14;13;12;11;10;9;8].
  cbn [find_subnet]. rewrite Hhi, Hlo.
  repeat match goal with
         | |- context [py_index ?l ?i] =>
             let v := eval vm_compute in (py_index l i) in
             change (py_index l i) with v
         end.
  cbv [sum_bind].
  destruct (Z.leb_spec (hi - lo) (2 ^ 24)) as [Hle|Hgt].
  - cbn. destruct (hi - lo >? 16777216) eqn:E; [|reflexivity].
    apply Z.gtb_lt in E. lia.
  - cbn.
    repeat match goal with
           | |- context [hi - lo >? ?b] =>
               replace (hi - lo >? b) with true
                 by (symmetry; apply Z.gtb_lt; lia); cbn
           end.
    reflexivity.
Qed.

(** C4: for a row whose bounds parse, the search of [random_asns] yields 24
    when the range width [hi - lo] is at most [2^24] and 8 otherwise: the
    first test (against [2^24]) already succeeds for every width that any
    smaller subnet could fit. *)
Theorem find_subnet_24_or_8 (row : list string) (lo hi : Z)
  (Hlo : row_int row 0 = inr lo) (Hhi : row_int row 1 = inr hi) :
  find_subnet (py_range_down 24 7) subnet_table_init row 8 =
    inr (if hi - lo <=? 2 ^ 24 then 24 else 8).
Proof.
  rewrite subnet_table_values.
  change (py_range_down 24 7) with
    [24;23;22;21;20;19;18;17;16;15;14;13;12;11;10;9;8].
  cbn [find_subnet]. rewrite Hhi, Hlo.
  repeat match goal with
         | |- context [py_index ?l ?i] =>
             let v := eval vm_compute in (py_index l i) in
             change (py_index l i) with v
         end.
  cbv [sum_bind].
  destruct (Z.leb_spec (hi - lo) (2 ^ 24)) as [Hle|Hgt].
  - cbn. destruct (hi - lo >? 16777216) eqn:E; [|reflexivity].
    apply Z.gtb_lt in E. lia.
  - cbn.
    repeat match goal with
           | |- context [hi - lo >? ?b] =>
               replace (hi - lo >? b) with true
                 by (symmetry; apply Z.gtb_lt; lia); cbn
           end.
    reflexivity.
Qed.

Lemma find_subnet_24_or_8_witness :
  row_int ["0"; "1023"; "64512"; "ZZ"; "EXAMPLE"] 0 = inr 0 /\
  row_int ["0"; "1023"; "64512"; "ZZ"; "EXAMPLE"] 1 = inr 1023 /\
  find_subnet (py_range_down 24 7) subnet_table_init ["0"; "1023"; "64512"; "ZZ"; "EXAMPLE"] 8
    = inr 24.
Proof.
  assert (H0 : row_int ["0"; "1023"; "64512"; "ZZ"; "EXAMPLE"] 0 = inr 0) by reflexivity.
  assert (H1 : row_int ["0"; "1023"; "64512"; "ZZ"; "EXAMPLE"] 1 = inr 1023) by reflexivity.
  split; [exact H0|]. split; [exact H1|].
  rewrite (find_subnet_24_or_8 _ _ _ H0 H1). reflexivity.
Defined.

(** ** Reasoning about monadic code *)

Lemma ok_post_ret {S A} (a : A) (Q : A -> Prop) : Q a -> ok_post (S:=S) (ret a) Q.
Proof. intros HQ s a' s' E. unfold ret in E. congruence. Qed.

Lemma ok_post_true {S A} (m : M S A) : ok_post m (fun _ => True).
Proof. intros ? ? ? ?; exact I. Qed.

Lemma ok_post_bind {S A B} (m : M S A) (k : A -> M S B) (P : A -> Prop) (Q : B -> Prop) :
  ok_post m P -> (forall a, P a -> ok_post (k a) Q) -> ok_post (bind m k) Q.
Proof.
  intros Hm Hk s b s'. unfold bind.
  destruct (m s) as [a s1|e s1] eqn:E; [|discriminate].
  intros Hb. exact (Hk a (Hm s a s1 E) s1 b s' Hb).
Qed.

Lemma ok_post_lift {S A} (r : exn + A) (Q : A -> Prop) :
  (forall a, r = inr a -> Q a) -> ok_post (S:=S) (lift r) Q.
Proof.
  intros HQ s a s'. destruct r as [e|a']; cbn; unfold raise, ret; [discriminate|].
  intros E. injection E as <- _. auto.
Qed.

Lemma keeps_raw_bind {RS A B} (m : M (World RS) A) (k : A -> M (World RS) B) :
  keeps_raw m -> (forall a, keeps_raw (k a)) -> keeps_raw (bind m k).
Proof.
  intros Hm Hk w. specialize (Hm w). unfold bind.
  destruct (m w) as [a w1|e w1]; cbn in *; [rewrite Hk|]; exact Hm.
Qed.

Lemma keeps_raw_ret {RS A} (a : A) : keeps_raw (RS:=RS) (ret a).
Proof. intros w; reflexivity. Qed.

Lemma keeps_raw_raise {RS A} (e : exn) : keeps_raw (RS:=RS) (A:=A) (raise e).
Proof. intros w; reflexivity. Qed.

Lemma keeps_raw_get {RS} : keeps_raw (RS:=RS) get.
Proof. intros w; reflexivity. Qed.

Lemma keeps_raw_lift {RS A} (r : exn + A) : keeps_raw (RS:=RS) (lift r).
Proof. destruct r; intros w; reflexivity. Qed.

Lemma keeps_raw_modify {RS} (f : World RS -> World RS) :
  (forall w, raw_csv (f w) = raw_csv w) -> keeps_raw (modify f).
Proof. intros Hf w. apply Hf. Qed.

Create HintDb keeps_raw_db.
#[global] Hint Resolve keeps_raw_ret keeps_raw_raise keeps_raw_get keeps_raw_lift
  : keeps_raw_db.

Ltac keeps_raw_step :=
  first
    [ apply keeps_raw_bind; [| intros ?]
    | apply keeps_raw_modify; intros; reflexivity
    | progress cbv zeta
    | match goal with
      | |- keeps_raw (if ?b then _ else _) => destruct b
      | |- keeps_raw (match ?p with (_, _) => _ end) => destruct p
      end
    | solve [auto with keeps_raw_db] ].

Section Generator.
Context {RS : Type} `{Rng RS}.
#[local] Abbreviation W := (World RS).

Lemma keeps_raw_randrange (a b : Z) : keeps_raw (randrange a b).
Proof.
  intros w. unfold randrange. destruct (b - a <=? 0); [reflexivity|].
  cbn. destruct (randbelow (rng w) (b - a)); reflexivity.
Qed.
Hint Resolve keeps_raw_randrange : keeps_raw_db.

Lemma keeps_raw_randint (a b : Z) : keeps_raw (randint a b).
Proof. apply keeps_raw_randrange. Qed.
Hint Resolve keeps_raw_randint : keeps_raw_db.

Lemma keeps_raw_generate_flow_record (t : Z) : keeps_raw (generate_flow_record t).
Proof.
  unfold generate_flow_record, random_client, random_server.
  repeat keeps_raw_step.
Qed.

Lemma keeps_raw_sample_segments (n : nat) (r : Z) (raw : list FlowRecord) (a b m : Z) :
  keeps_raw (sample_segments n r raw a b m).
Proof.
  revert a b m; induction n as [|n IH]; intros a b m; cbn [sample_segments];
    repeat keeps_raw_step.
Qed.

(** A client record carries the tick it was generated for. *)
Lemma generate_flow_record_client_ts (t : Z) :
  ok_post (generate_flow_record t) (fun p => timestamp (fst p) = t).
Proof.
  unfold generate_flow_record.
  repeat first
    [ eapply ok_post_bind; [apply ok_post_true | intros ? _]
    | progress cbv zeta
    | match goal with
      | |- ok_post (match ?c with (_, _) => _ end) _ => destruct c
      end ].
  apply ok_post_ret. reflexivity.
Qed.

Section WithRange.
(** [_randbelow(n)] returns a value of [range(n)]. *)
Hypothesis randbelow_range : forall (g : RS) (n : Z), 0 < n -> 0 <= fst (randbelow g n) < n.

Lemma ok_post_randrange (a b : Z) : ok_post (randrange a b) (fun v => a <= v < b).
Proof.
  intros w v w'. unfold randrange.
  destruct (Z.leb_spec (b - a) 0) as [Hle|Hlt]; [unfold raise; discriminate|].
  specialize (randbelow_range (rng w) (b - a) ltac:(lia)).
  destruct (randbelow (rng w) (b - a)) as [x g]. cbn in *.
  intros E. injection E as <- _. lia.
Qed.

Lemma ok_post_randint (a b : Z) : ok_post (randint a b) (fun v => a <= v <= b).
Proof.
  intros w v w' E. apply (ok_post_randrange a (b + 1)) in E. lia.
Qed.

(** The timestamps of a generated pair. *)
Lemma generate_flow_record_post (t : Z) :
  ok_post (generate_flow_record t)
    (fun p => timestamp (fst p) = t /\
              t + SERVER_LATENCY <= timestamp (snd p) <= t + SERVER_LATENCY + MAX_JITTER - 1).
Proof.
  unfold generate_flow_record.
  repeat first
    [ eapply ok_post_bind; [apply (ok_post_randrange 0 MAX_JITTER) | intros ? ?]
    | eapply ok_post_bind; [apply ok_post_true | intros ? _]
    | progress cbv zeta
    | match goal with
      | |- ok_post (match ?c with (_, _) => _ end) _ => destruct c
      end ].
  apply ok_post_ret. cbn. unfold SERVER_LATENCY, MAX_JITTER in *. lia.
Qed.

(** C9: in every pair [generate_flow_record t] returns, the client record
    is stamped [t] and the server record [t + 15 + jitter] with jitter in
    [0, 5], so the client's timestamp is strictly the smaller. *)
Theorem generate_flow_record_timestamps (t : Z) (w w' : W) (c s : FlowRecord)
  (Hrun : generate_flow_record t w = Ok (c, s) w') :
  timestamp c = t
  /\ t + SERVER_LATENCY <= timestamp s <= t + SERVER_LATENCY + MAX_JITTER - 1
  /\ timestamp c < timestamp s.
Proof.
  pose proof (generate_flow_record_post t w (c, s) w' Hrun) as HQ. cbn in HQ.
  unfold SERVER_LATENCY, MAX_JITTER in *. lia.
Qed.

End WithRange.
End Generator.

(** ** The flow buffer and the order of the raw output *)

Lemma buf_keyed_empty : buf_keyed ∅.
Proof. intros k l E. rewrite lookup_empty in E. discriminate. Qed.

Lemma buf_keyed_add (b : gmap Z (list FlowRecord)) (f : FlowRecord) :
  buf_keyed b -> buf_keyed (buffer_add b f).
Proof.
  intros Hb k l. unfold buffer_add.
  destruct (b !! timestamp f) as [l0|] eqn:E0; rewrite lookup_insert;
    case_decide as Hk; subst.
  - intros [= <-]. apply Forall_app; split; [exact (Hb _ _ E0)|].
    constructor; [reflexivity|constructor].
  - apply Hb.
  - intros [= <-]. constructor; [reflexivity|constructor].
  - apply Hb.
Qed.

Lemma drain_keyed (b : gmap Z (list FlowRecord)) (t : Z) :
  buf_keyed b ->
  Forall (fun r => timestamp r = t) (fst (drain b t)) /\ buf_keyed (snd (drain b t)).
Proof.
  intros Hb. unfold drain. destruct (b !! t) as [l|] eqn:E; cbn.
  - split; [exact (Hb _ _ E)|].
    intros k l'. rewrite lookup_delete. case_decide; [discriminate|apply Hb].
  - split; [constructor|exact Hb].
Qed.

Lemma ssorted_const (t : Z) (l : list Z) :
  Forall (fun z => z = t) l -> StronglySorted Z.le l.
Proof.
  induction 1 as [|x l Hx Hl IH]; constructor; [exact IH|].
  apply Forall_forall. intros y Hy. rewrite Forall_forall in Hl.
  rewrite (Hl y Hy), Hx. lia.
Qed.

Lemma raw_before_extend (t : Z) (raw flows : list FlowRecord) :
  raw_before t raw -> Forall (fun r => timestamp r = t) flows ->
  raw_before (t + 1) (raw ++ flows).
Proof.
  intros [Hs Hlt] Hf. split.
  - rewrite map_app. apply StronglySorted_app_2.
    + intros x1 x2 H1 H2.
      apply list_elem_of_In, in_map_iff in H1 as (r1 & <- & H1).
      apply list_elem_of_In, in_map_iff in H2 as (r2 & <- & H2).
      apply list_elem_of_In in H1, H2.
      rewrite Forall_forall in Hlt, Hf.
      specialize (Hlt r1 H1). specialize (Hf r2 H2). lia.
    + exact Hs.
    + apply (ssorted_const t). apply Forall_map. exact Hf.
  - apply Forall_app. split.
    + eapply Forall_impl; [exact Hlt|]. intros r Hr; cbn in *; lia.
    + eapply Forall_impl; [exact Hf|]. intros r Hr; cbn in *; lia.
Qed.

Section Scheduler.
Context {RS : Type} `{Rng RS}.
#[local] Abbreviation W := (World RS).

Lemma fill_ms_keyed (n : nat) (fpm t : Z) (flows : list FlowRecord)
  (b : gmap Z (list FlowRecord)) (w : W) :
  Forall (fun r => timestamp r = t) flows -> buf_keyed b ->
  match fill_ms n fpm t flows b w with
  | Ok fb w' => Forall (fun r => timestamp r = t) (fst fb) /\ buf_keyed (snd fb)
                /\ raw_csv w' = raw_csv w
  | Err _ w' => raw_csv w' = raw_csv w
  end.
Proof.
  revert flows b w; induction n as [|n IH]; intros flows b w Hf Hb; cbn [fill_ms].
  - cbn. auto.
  - destruct (Z.of_nat (length flows) <? fpm); [|cbn; auto].
    unfold bind.
    pose proof (keeps_raw_generate_flow_record t w) as Hk.
    pose proof (generate_flow_record_client_ts t w) as Hc.
    destruct (generate_flow_record t w) as [[c s] w1|e w1]; cbn in Hk |- *; [|exact Hk].
    specialize (Hc _ _ eq_refl). cbn in Hc.
    specialize (IH (flows ++ [c]) (buffer_add b s) w1).
    destruct (fill_ms n fpm t (flows ++ [c]) (buffer_add b s) w1) as [fb w2|e w2].
    + destruct IH as (IH1 & IH2 & IH3).
      * apply Forall_app; split; [exact Hf|constructor; [exact Hc|constructor]].
      * apply buf_keyed_add, Hb.
      * split; [exact IH1|]. split; [exact IH2|]. congruence.
    + rewrite IH; [exact Hk| |apply buf_keyed_add, Hb].
      apply Forall_app; split; [exact Hf|constructor; [exact Hc|constructor]].
Qed.

Lemma tick_inv (fpm : Z) (L : Loop) (w : W) :
  loop_inv L (raw_csv w) ->
  match tick fpm L w with
  | Ok L' w' => loop_inv L' (raw_csv w') /\ time_index_ms L' = time_index_ms L + 1
  | Err _ w' => raw_csv w' = raw_csv w
  end.
Proof.
  intros [Hraw Hb]. unfold tick, bind, modify.
  destruct (drain_keyed (flow_buffer L) (time_index_ms L) Hb) as [Hd1 Hd2].
  pose proof (fill_ms_keyed (Z.to_nat fpm) fpm (time_index_ms L)
                (fst (drain (flow_buffer L) (time_index_ms L)))
                (snd (drain (flow_buffer L) (time_index_ms L))) w Hd1 Hd2) as Hfill.
  destruct (fill_ms _ _ _ _ _ w) as [fb w1|e w1]; [|exact Hfill].
  destruct Hfill as (Hf1 & Hf2 & Hf3). cbn.
  split; [|reflexivity].
  split; cbn; [|exact Hf2].
  rewrite Hf3. apply raw_before_extend; assumption.
Qed.

Lemma ticks_inv (n : nat) (fpm : Z) (L : Loop) (w : W) :
  loop_inv L (raw_csv w) ->
  match ticks n fpm L w with
  | Ok L' w' => loop_inv L' (raw_csv w')
  | Err _ w' => StronglySorted Z.le (map timestamp (raw_csv w'))
  end.
Proof.
  revert L w; induction n as [|n IH]; intros L w Hinv; cbn [ticks].
  - exact Hinv.
  - unfold bind. pose proof (tick_inv fpm L w Hinv) as Ht.
    destruct (tick fpm L w) as [L1 w1|e w1].
    + apply IH, Ht.
    + rewrite Ht. exact (proj1 (proj1 Hinv)).
Qed.

Lemma gen_loop_sorted (fuel : nat) (ftm fpm R segments fps : Z) (L : Loop) (w : W) :
  loop_inv L (raw_csv w) ->
  StronglySorted Z.le
    (map timestamp (raw_csv (state_of (gen_loop fuel ftm fpm R segments fps L w)))).
Proof.
  revert L w; induction fuel as [|fuel IH]; intros L w Hinv; cbn [gen_loop].
  - destruct (_ <? _); exact (proj1 (proj1 Hinv)).
  - destruct (_ <? _); [|exact (proj1 (proj1 Hinv))].
    unfold bind. pose proof (ticks_inv 1000 fpm L w Hinv) as Ht.
    destruct (ticks 1000 fpm L w) as [L1 w1|e w1]; [|exact Ht].
    pose proof (keeps_raw_sample_segments (Z.to_nat segments) R (raw_flows L1) 0 (R - 1)
                  (total_sampled_flows_made L1) w1) as Hs.
    unfold sample_window.
    destruct (sample_segments _ _ _ _ _ _ w1) as [made w2|e w2]; cbn in Hs |- *.
    + apply IH. cbn. rewrite Hs. exact Ht.
    + rewrite Hs. exact (proj1 (proj1 Ht)).
Qed.

(** C7: whatever way [generate_data] ends (normally, with an exception, or
    still running when the model's fuel runs out), the rows it has written
    to the raw CSV file are in non-decreasing timestamp order.  With
    [sampling_rate = 0] it raises [ZeroDivisionError] before opening the
    file. *)
Theorem generate_data_raw_sorted (fuel : nat) (flows_to_make flows_per_ms sampling_rate : Z)
  (w : W) (HR : sampling_rate <> 0) :
  Sorted Z.le (map timestamp
    (raw_csv (state_of (generate_data fuel flows_to_make flows_per_ms sampling_rate w)))).
Proof.
  apply StronglySorted_Sorted.
  unfold generate_data, generate_data_run.
  destruct (Z.eqb_spec sampling_rate 0) as [E|_]; [contradiction|].
  unfold say, bind, modify, remap_err.
  pose proof (keeps_raw_generate_flow_record 0 (open_csv_files (add_log (LogText "Creating files") w))) as Hk.
  destruct (generate_flow_record 0 _) as [p w1|e w1]; cbn in Hk |- *.
  - pose proof (gen_loop_sorted fuel flows_to_make flows_per_ms sampling_rate
      ((flows_per_ms * 1000) /
         (if flows_per_ms * 1000 / sampling_rate >? 0
          then flows_per_ms * 1000 / sampling_rate else 1))
      (flows_per_ms * 1000) loop_init
      (add_log (LogText "Looping to make flows") (add_log (LogText "Writing csv headers") w1)))
      as Hg.
    cbn in Hg.
    destruct (gen_loop _ _ _ _ _ _ _ _) as [L w2|e w2]; cbn in *; apply Hg;
      rewrite Hk; (split; [split; constructor|apply buf_keyed_empty]).
  - rewrite Hk. constructor.
Qed.
End Scheduler.

(** ** [random_asns] and its configuration error *)

Lemma py_index_ok {A} (l : list A) (i : Z) :
  0 <= i < Z.of_nat (length l) ->
  exists x, py_index l i = inr x /\ nth_error l (Z.to_nat i) = Some x.
Proof.
  intros Hi. unfold py_index.
  replace (i <? 0) with false by (symmetry; apply Z.ltb_ge; lia).
  replace ((0 <=? i) && (i <? Z.of_nat (length l))) with true
    by (symmetry; apply andb_true_intro; split; [apply Z.leb_le|apply Z.ltb_lt]; lia).
  destruct (nth_error l (Z.to_nat i)) as [x|] eqn:E.
  - exists x. split; reflexivity.
  - apply nth_error_None in E. lia.
Qed.

Lemma py_del_ok {A} (l : list A) (i : Z) :
  0 <= i < Z.of_nat (length l) ->
  py_del l i = inr (firstn (Z.to_nat i) l ++ skipn (S (Z.to_nat i)) l).
Proof.
  intros Hi. unfold py_del.
  replace (i <? 0) with false by (symmetry; apply Z.ltb_ge; lia).
  replace ((0 <=? i) && (i <? Z.of_nat (length l))) with true
    by (symmetry; apply andb_true_intro; split; [apply Z.leb_le|apply Z.ltb_lt]; lia).
  reflexivity.
Qed.

Lemma bind_ok {S A B} (m : M S A) (k : A -> M S B) (s s' : S) (a : A) :
  m s = Ok a s' -> bind m k s = k a s'.
Proof. intros E. unfold bind. rewrite E. reflexivity. Qed.

Lemma lift_inr {S A} (a : A) (s : S) : lift (inr a) s = Ok a s.
Proof. reflexivity. Qed.

Section RandomAsns.
Context {RS : Type} `{Rng RS}.
#[local] Abbreviation W := (World RS).
Hypothesis randbelow_range : forall (g : RS) (n : Z), 0 < n -> 0 <= fst (randbelow g n) < n.

Lemma randrange_ok (a b : Z) (w : W) :
  a < b -> exists v w', randrange a b w = Ok v w' /\ a <= v < b /\ asn_table w' = asn_table w.
Proof.
  intros Hab. unfold randrange.
  replace (b - a <=? 0) with false by (symmetry; apply Z.leb_gt; lia).
  specialize (randbelow_range (rng w) (b - a) ltac:(lia)).
  destruct (randbelow (rng w) (b - a)) as [v g]. cbn in *.
  exists (a + v), (set_rng g w). split; [reflexivity|]. split; [lia|reflexivity].
Qed.

Lemma select_routes_ok (xs : list Z) (k : Z) (nt : dict ASNRoute) (w : W) :
  Forall row_wf (asn_table w) -> (length xs <= length (asn_table w))%nat ->
  exists r w', select_routes xs k subnet_table_init nt w = Ok r w'.
Proof.
  revert nt w; induction xs as [|x xs IH]; intros nt w Hwf Hlen; cbn [select_routes].
  - exists nt, w. reflexivity.
  - cbn [length] in Hlen.
    destruct (randrange_ok 0 (Z.of_nat (length (asn_table w))) w ltac:(lia))
      as (i & w1 & Ei & Hi & Hw1).
    destruct (py_index_ok (asn_table w) i ltac:(lia)) as (row & Erow & Nrow).
    assert (Hrow : row_wf row).
    { apply nth_error_In in Nrow. exact (proj1 (List.Forall_forall _ _) Hwf row Nrow). }
    destruct Hrow as (H5 & [a0 Ha0] & [a1 Ha1] & [a2 Ha2]).
    destruct (py_index_ok row 2 ltac:(lia)) as (c2 & Ec2 & _).
    destruct (py_index_ok row 3 ltac:(lia)) as (c3 & Ec3 & _).
    destruct (py_index_ok row 4 ltac:(lia)) as (c4 & Ec4 & _).
    unfold bind at 1, get.
    rewrite (bind_ok _ _ _ _ _ Ei).
    rewrite Erow, (bind_ok _ _ _ _ _ (lift_inr _ _)).
    rewrite (find_subnet_value row a0 a1 Ha0 Ha1), (bind_ok _ _ _ _ _ (lift_inr _ _)).
    rewrite Ha0, (bind_ok _ _ _ _ _ (lift_inr _ _)).
    rewrite Ha1, (bind_ok _ _ _ _ _ (lift_inr _ _)).
    rewrite (bind_ok _ _ _ _ _ (lift_inr _ _)).
    rewrite (bind_ok _ _ _ _ _ (lift_inr _ _)).
    rewrite Ha2, (bind_ok _ _ _ _ _ (lift_inr _ _)).
    rewrite Ec3, (bind_ok _ _ _ _ _ (lift_inr _ _)).
    rewrite Ec4, (bind_ok _ _ _ _ _ (lift_inr _ _)).
    rewrite Ec2, (bind_ok _ _ _ _ _ (lift_inr _ _)).
    unfold say. rewrite (bind_ok _ _ _ _ _ (eq_refl : modify _ w1 = Ok tt _)).
    unfold bind at 1, get.
    cbn [asn_table add_log]. rewrite Hw1.
    rewrite (py_del_ok (asn_table w) i ltac:(lia)), (bind_ok _ _ _ _ _ (lift_inr _ _)).
    rewrite (bind_ok _ _ _ _ _ (eq_refl : modify _ _ = Ok tt _)).
    apply IH; cbn.
    + apply Forall_app. split.
      * apply Forall_take, Hwf.
      * apply Forall_drop, Hwf.
    + rewrite length_app, length_firstn, length_skipn. lia.
Qed.

(** C8: [random_asns] raises exactly when more ASNs are requested than the
    table has rows (for a table of well-formed rows), and then it raises
    [ValueError] as its first step: the returned state is the initial one,
    so neither the caller's [asn_table], nor the generator, nor the log was
    touched. *)
Theorem random_asns_error_iff (k : Z) (w : W) (Hwf : Forall row_wf (asn_table w)) :
  ((exists e w', random_asns k w = Err e w') <-> Z.of_nat (length (asn_table w)) < k)
  /\ (Z.of_nat (length (asn_table w)) < k -> random_asns k w = Err ValueError w).
Proof.
  assert (Hbad : Z.of_nat (length (asn_table w)) < k -> random_asns k w = Err ValueError w).
  { intros Hk. unfold random_asns, bind, get.
    replace (Z.of_nat (length (asn_table w)) <? k) with true
      by (symmetry; apply Z.ltb_lt; exact Hk).
    reflexivity. }
  split; [|exact Hbad]. split.
  - intros (e & w' & E).
    destruct (Z.ltb_spec (Z.of_nat (length (asn_table w))) k) as [Hk|Hk]; [exact Hk|].
    unfold random_asns, bind at 1, get in E.
    replace (Z.of_nat (length (asn_table w)) <? k) with false in E
      by (symmetry; apply Z.ltb_ge; exact Hk).
    destruct (select_routes_ok (py_range 0 k) k [] w Hwf) as (r & w'' & E').
    { unfold py_range. rewrite length_map, length_seq. lia. }
    rewrite E' in E. discriminate.
  - intros Hk. exists ValueError, w. exact (Hbad Hk).
Qed.
End RandomAsns.

(** ** [make_route_table] *)

Lemma dict_get_map_ne {V} (d : dict V) (k k' : Z) (v : V) :
  k <> k' ->
  dict_get (map (fun kv => if fst kv =? k then (k, v) else kv) d) k' = dict_get d k'.
Proof.
  intros Hne. induction d as [|[k0 v0] d IH]; cbn; [reflexivity|].
  destruct (Z.eqb_spec k0 k) as [->|Hne0]; cbn.
  - replace (k =? k') with false by (symmetry; apply Z.eqb_neq; exact Hne). exact IH.
  - destruct (k0 =? k'); [reflexivity|exact IH].
Qed.

Lemma dict_get_map_eq {V} (d : dict V) (k : Z) (v : V) :
  existsb (fun kv => fst kv =? k) d = true ->
  dict_get (map (fun kv => if fst kv =? k then (k, v) else kv) d) k = Some v.
Proof.
  induction d as [|[k0 v0] d IH]; cbn; [discriminate|].
  destruct (Z.eqb_spec k0 k) as [->|Hne0]; cbn.
  - rewrite Z.eqb_refl. reflexivity.
  - intros Ex. replace (k0 =? k) with false by (symmetry; apply Z.eqb_neq; exact Hne0).
    exact (IH Ex).
Qed.

Lemma dict_get_app_new {V} (d : dict V) (k k' : Z) (v : V) :
  existsb (fun kv => fst kv =? k) d = false ->
  dict_get (d ++ [(k, v)]) k' = if k =? k' then Some v else dict_get d k'.
Proof.
  induction d as [|[k0 v0] d IH]; cbn; intros Ex.
  - destruct (k =? k'); reflexivity.
  - apply orb_false_iff in Ex as [Ex1 Ex2].
    destruct (Z.eqb_spec k0 k').
    + subst. destruct (Z.eqb_spec k k') as [->|]; [|reflexivity].
      rewrite Z.eqb_refl in Ex1. discriminate.
    + apply IH, Ex2.
Qed.

Lemma dict_get_set {V} (d : dict V) (k k' : Z) (v : V) :
  dict_get (dict_set d k v) k' = if k =? k' then Some v else dict_get d k'.
Proof.
  unfold dict_set. destruct (existsb (fun kv => fst kv =? k) d) eqn:Ex.
  - destruct (Z.eqb_spec k k') as [<-|Hne].
    + apply dict_get_map_eq, Ex.
    + apply dict_get_map_ne, Hne.
  - apply dict_get_app_new, Ex.
Qed.

Lemma bind_Ok_inv {S A B} (m : M S A) (k : A -> M S B) (s s' : S) (b : B) :
  bind m k s = Ok b s' -> exists a s1, m s = Ok a s1 /\ k a s1 = Ok b s'.
Proof.
  unfold bind. destruct (m s) as [a s1|e s1]; [|discriminate].
  intros E. exists a, s1. split; [reflexivity|exact E].
Qed.

Lemma lift_Ok_inv {S A} (r : exn + A) (s s' : S) (a : A) :
  lift r s = Ok a s' -> r = inr a /\ s' = s.
Proof.
  destruct r; cbn; unfold raise, ret; [discriminate|].
  intros E. injection E as -> ->. split; reflexivity.
Qed.

Ltac inv_binds H :=
  repeat match type of H with
         | bind _ _ _ = Ok _ _ =>
             let a := fresh "a" in let s := fresh "s" in let E := fresh "E" in
             apply bind_Ok_inv in H; destruct H as (a & s & E & H)
         end.

Section RouteTable.
Context {RS : Type} `{Rng RS}.
#[local] Abbreviation W := (World RS).

Lemma assign_next_hops_ifindex (ks : list Z) (li : NetworkInterface)
  (asns r : dict ASNRoute) (w w' : W) :
  assign_next_hops ks (Some li) asns w = Ok r w' ->
  forall k, In k ks \/ (exists v, dict_get asns k = Some v /\ ifindex v = Some (ni_ifindex li)) ->
  exists v, dict_get r k = Some v /\ ifindex v = Some (ni_ifindex li).
Proof.
  revert asns w; induction ks as [|k0 ks IH]; intros asns w Hrun k Hk; cbn [assign_next_hops] in Hrun.
  - unfold ret in Hrun. injection Hrun as <- _.
    destruct Hk as [[]|Hk]; exact Hk.
  - inv_binds Hrun.
    unfold get in E. injection E as <- <-.
    apply lift_Ok_inv in E1 as [_ <-].
    apply lift_Ok_inv in E2 as [_ <-].
    apply lift_Ok_inv in E3 as [Er <-].
    apply lift_Ok_inv in E4 as [Eli <-]. cbn in Eli. injection Eli as <-.
    apply lift_Ok_inv in E5 as [Er1 <-].
    apply (IH _ _ Hrun).
    destruct (Z.eqb_spec k0 k) as [<-|Hne].
    + right. rewrite dict_get_set, Z.eqb_refl. eexists; split; reflexivity.
    + destruct Hk as [[Hk|Hk]|Hk]; [congruence|left; exact Hk|right].
      rewrite dict_get_set, dict_get_set.
      replace (k0 =? k) with false by (symmetry; apply Z.eqb_neq; exact Hne).
      exact Hk.
Qed.

(** C5 (as the code is): after [make_route_table] on the class's five
    peering interfaces, every selected ASN has [ifindex = 14], the index of
    the last interface (the loop variable [interface] left over from the
    resolution loop), whichever interface was drawn for its [next_hop]. *)
Theorem make_route_table_ifindex_14 (asns r : dict ASNRoute) (w w' : W)
  (Hp : peering w = DEFAULT_PEERING_INTERFACES)
  (Hrun : make_route_table asns w = Ok r w') :
  forall k, In k (dict_keys asns) ->
  exists v, dict_get r k = Some v /\ ifindex v = Some 14.
Proof.
  unfold make_route_table in Hrun. inv_binds Hrun.
  unfold get in E. injection E as <- <-.
  rewrite Hp in E0. cbn in E0. injection E0 as <- <-.
  unfold modify in E2. injection E2 as <-.
  unfold ret in Hrun. injection Hrun as <- _.
  intros k Hk.
  exact (assign_next_hops_ifindex _ _ _ _ _ _ E1 k (or_introl Hk)).
Qed.
End RouteTable.

(** ** The sampling step *)

Section Sampling.
Context {RS : Type} `{Rng RS}.
Hypothesis randbelow_range : forall g n, 0 < n -> 0 <= fst (randbelow g n) < n.

Lemma segment_next (R j : Z) :
  0 <= j -> segment_hi R j + 1 = segment_lo R (j + 1)
         /\ segment_hi R j + R - 1 = segment_hi R (j + 1).
Proof.
  intros Hj. unfold segment_lo, segment_hi.
  destruct (Z.eqb_spec (j + 1) 0); [lia|]. split; lia.
Qed.

Lemma sample_segments_draws (R : Z) (raw : list FlowRecord) (n : nat) :
  forall (j made m : Z) (w w' : World RS), 0 <= j ->
  sample_segments n R raw (segment_lo R j) (segment_hi R j) made w = Ok m w' ->
  m = made + Z.of_nat n /\
  exists rows, sampled_csv w' = sampled_csv w ++ rows /\ length rows = n /\
    forall i row, nth_error rows i = Some row ->
      exists v, segment_lo R (j + Z.of_nat i) <= v <= segment_hi R (j + Z.of_nat i)
        /\ py_index raw (sample_clamp raw v) = inr row.
Proof.
  induction n as [|n IH]; intros j made m w w' Hj E.
  - cbn in E. injection E as <- <-. split; [lia|].
    exists []. split; [rewrite app_nil_r; reflexivity|]. split; [reflexivity|].
    intros i row Hi. destruct i; discriminate.
  - cbn [sample_segments] in E. unfold randint, randrange, bind in E.
    destruct (segment_hi R j + 1 - segment_lo R j <=? 0) eqn:Hw; [discriminate|].
    apply Z.leb_gt in Hw.
    destruct (randbelow (rng w) (segment_hi R j + 1 - segment_lo R j)) as [v g] eqn:Hv.
    pose proof (randbelow_range (rng w) _ Hw) as Hr. rewrite Hv in Hr. cbn in Hr.
    cbv zeta in E. fold (sample_clamp raw (segment_lo R j + v)) in E.
    destruct (py_index raw (sample_clamp raw (segment_lo R j + v))) as [e|row] eqn:Hrow;
      cbn in E; [discriminate|].
    destruct (segment_next R j Hj) as [E1 E2]. rewrite E1, E2 in E.
    destruct (IH (j + 1) (made + 1) m _ w' ltac:(lia) E) as [Hm (rows & Hs & Hl & Hrows)].
    split; [lia|]. exists (row :: rows). split; [|split].
    + rewrite Hs. cbn. rewrite <- app_assoc. reflexivity.
    + cbn. rewrite Hl. reflexivity.
    + intros [|i] r Hi.
      * injection Hi as <-. exists (segment_lo R j + v).
        rewrite Z.add_0_r. split; [lia|exact Hrow].
      * destruct (Hrows i r Hi) as (v' & Hb & Hp). exists v'.
        replace (j + Z.of_nat (S i)) with (j + 1 + Z.of_nat i) by lia. auto.
Qed.

(** C1: a successful sampling step writes exactly [segments]
    records. The [i]-th of them is the record at the clamped index of a draw
    from [[segment_lo R i, segment_hi R i]]: the first range is
    [[0, R - 1]], of width [R], and every later one has width [R - 1]. *)
Theorem sample_window_ranges (segments R : Z) (raw : list FlowRecord) (made m : Z)
  (w w' : World RS) (Hrun : sample_window segments R raw made w = Ok m w') :
  m = made + Z.of_nat (Z.to_nat segments) /\
  (exists rows, sampled_csv w' = sampled_csv w ++ rows
    /\ length rows = Z.to_nat segments
    /\ forall i row, nth_error rows i = Some row ->
         exists v, segment_lo R (Z.of_nat i) <= v <= segment_hi R (Z.of_nat i)
           /\ py_index raw (sample_clamp raw v) = inr row) /\
  segment_hi R 0 - segment_lo R 0 + 1 = R /\
  (forall i, 1 <= i -> segment_hi R i - segment_lo R i + 1 = R - 1).
Proof.
  unfold sample_window in Hrun.
  replace 0 with (segment_lo R 0) in Hrun by reflexivity.
  replace (R - 1) with (segment_hi R 0) in Hrun by (unfold segment_hi; lia).
  destruct (sample_segments_draws R raw (Z.to_nat segments) 0 made m w w'
              ltac:(lia) Hrun) as [Hm (rows & Hs & Hl & Hrows)].
  split; [exact Hm|]. split; [|split].
  - exists rows. split; [exact Hs|]. split; [exact Hl|]. exact Hrows.
  - unfold segment_lo, segment_hi. cbn. lia.
  - intros i Hi. unfold segment_lo, segment_hi.
    destruct (Z.eqb_spec i 0); [lia|]. lia.
Qed.

End Sampling.

(** ** The flow buffer's window *)






Lemma window_mono (t t' : Z) (b : gmap Z (list FlowRecord)) :
  t <= t' -> (forall k l, b !! k = Some l -> t' <= k) -> window t b -> window t' b.
Proof. intros Ht Hk Hb k l E. destruct (Hb k l E). specialize (Hk k l E). split; [lia|auto]. Qed.





Section BufferWindow.
Context {RS : Type} `{Rng RS}.
Hypothesis randbelow_range : forall (g : RS) (n : Z), 0 < n -> 0 <= fst (randbelow g n) < n.














End BufferWindow.

(** ** Further properties *)

Lemma hex_byte_ok (b : byte) :
  let v := Z.of_N (Byte.to_N b) in
  is_py_space (hex_digit (v / 16)) = false
  /\ hex_val (hex_digit (v / 16)) = Some (v / 16)
  /\ hex_val (hex_digit (v mod 16)) = Some (v mod 16)
  /\ byte_of_Z (16 * (v / 16) + v mod 16) = b.
Proof. destruct b; vm_compute; repeat split. Qed.

Lemma fromhex_bytes_hex (bs : list byte) :
  bytes_fromhex (bytes_hex bs) = inr bs.
Proof.
  unfold bytes_fromhex, bytes_hex. rewrite list_ascii_of_string_of_list_ascii.
  induction bs as [|b bs IH]; [reflexivity|].
  cbn [flat_map app fromhex_chars].
  destruct (hex_byte_ok b) as (H1 & H2 & H3 & H4).
  rewrite H1, H2, H3, IH, H4. reflexivity.
Qed.

Lemma hex_not_space (c : ascii) : hex_val c <> None -> is_py_space c = false.
Proof. destruct c as [[] [] [] [] [] [] [] []]; vm_compute; congruence. Qed.

Lemma fromhex_hex_chars (n : nat) (cs : list ascii) :
  length cs = (2 * n)%nat -> Forall (fun c => hex_val c <> None) cs ->
  exists bs, fromhex_chars cs = inr bs /\ length bs = n.
Proof.
  revert cs; induction n as [|n IH]; intros cs Hl Hh.
  - destruct cs; [|discriminate]. exists []. split; reflexivity.
  - destruct cs as [|c [|d cs]]; try (cbn in Hl; lia).
    inversion Hh as [|? ? Hc Hh']; subst. inversion Hh' as [|? ? Hd Hcs]; subst.
    destruct (IH cs ltac:(cbn in Hl; lia) Hcs) as (bs & E & Hbs).
    cbn [fromhex_chars]. rewrite (hex_not_space c Hc).
    destruct (hex_val c) as [hi|]; [|congruence]. destruct (hex_val d) as [lo|]; [|congruence].
    rewrite E. eexists; split; [reflexivity|]. cbn. lia.
Qed.

Lemma list_ascii_of_string_app (a b : string) :
  list_ascii_of_string (a ++ b) = list_ascii_of_string a ++ list_ascii_of_string b.
Proof. induction a as [|c a IH]; simpl; [reflexivity|rewrite IH; reflexivity]. Qed.

Lemma string_length_list (s : string) : String.length s = length (list_ascii_of_string s).
Proof. induction s as [|c s IH]; cbn; auto. Qed.

Lemma init_system_id_hex :
  (forall bs u, bs <> [] -> bytes_fromhex (init_system_id (Some bs) u) = inr bs)
  /\ (forall u, init_system_id (Some []) u = init_system_id None u)
  /\ (forall u, String.length u = 32%nat ->
        Forall (fun c => hex_val c <> None) (list_ascii_of_string u) ->
        exists bs, bytes_fromhex (init_system_id None u) = inr bs /\ length bs = 16%nat).
Proof.
  split; [|split].
  - intros [|b bs] u Hne; [congruence|]. exact (fromhex_bytes_hex (b :: bs)).
  - reflexivity.
  - intros u Hl Hh. unfold init_system_id, bytes_fromhex. unfold ljust32.
    rewrite list_ascii_of_string_app, Hl. cbn [Nat.sub repeat string_of_list_ascii list_ascii_of_string].
    rewrite app_nil_r. apply fromhex_hex_chars; [|exact Hh].
    rewrite <- string_length_list, Hl. reflexivity.
Qed.

Lemma octet_roundtrip (b : byte) :
  let cs := list_ascii_of_string (py_str_nonneg (byte_val b)) in
  no_dot cs = true /\ parse_octet cs = inr (byte_val b) /\ byte_of_Z (byte_val b) = b.
Proof. destruct b; vm_compute; auto. Qed.

Lemma split_dots_app (cs rest : list ascii) :
  no_dot cs = true -> split_dots (cs ++ "."%char :: rest) = cs :: split_dots rest.
Proof.
  induction cs as [|c cs IH]; intros Hn; [reflexivity|].
  cbn in Hn. apply andb_prop in Hn as [Hc Hn].
  cbn [app split_dots]. destruct (Ascii.eqb c "."%char); [discriminate|].
  rewrite (IH Hn). reflexivity.
Qed.

Lemma split_dots_nodot (cs : list ascii) : no_dot cs = true -> split_dots cs = [cs].
Proof.
  induction cs as [|c cs IH]; intros Hn; [reflexivity|].
  cbn in Hn. apply andb_prop in Hn as [Hc Hn].
  cbn [split_dots]. destruct (Ascii.eqb c "."%char); [discriminate|].
  rewrite (IH Hn). reflexivity.
Qed.

Lemma byte_val_of_Z (z : Z) : byte_val (byte_of_Z z) = z mod 256.
Proof.
  unfold byte_val, byte_of_Z.
  assert (Hl : Z.land z 255 = z mod 256) by (change 255 with (Z.ones 8); apply Z.land_ones; lia).
  rewrite Hl. pose proof (Z.mod_pos_bound z 256 ltac:(lia)) as Hb.
  pose proof (Byte.to_of_N_option_map (Z.to_N (z mod 256))) as Ho.
  destruct (N.leb_spec (Z.to_N (z mod 256)) 255) as [_|Hgt]; [|lia].
  destruct (Byte.of_N (Z.to_N (z mod 256))) as [b'|]; cbn in Ho; [|discriminate].
  injection Ho as ->. lia.
Qed.

Lemma int_from_bytes_snoc (l : list byte) (b : byte) :
  int_from_bytes (l ++ [b]) = 256 * int_from_bytes l + byte_val b.
Proof. unfold int_from_bytes. rewrite fold_left_app. reflexivity. Qed.

Lemma int_from_bytes_be_digits (n : nat) (x : Z) :
  int_from_bytes (be_digits n x) = x mod 2 ^ (8 * Z.of_nat n).
Proof.
  revert x; induction n as [|n IH]; intros x.
  - cbn. rewrite Z.mod_1_r. reflexivity.
  - cbn [be_digits]. rewrite int_from_bytes_snoc, IH, byte_val_of_Z, Z.shiftr_div_pow2 by lia.
    replace (2 ^ (8 * Z.of_nat (S n))) with (256 * 2 ^ (8 * Z.of_nat n))
      by (rewrite Nat2Z.inj_succ, Z.mul_succ_r, Z.pow_add_r by lia; lia).
    rewrite Z.rem_mul_r by (try lia; apply Z.pow_pos_nonneg; lia).
    change (2 ^ 8) with 256. lia.
Qed.

Lemma ip_int_to_string_roundtrip (ip : Z) :
  (0 <= ip < 2 ^ 32 ->
     exists s bs, ip_int_to_string ip = inr s /\ ip_packed s = inr bs /\ int_from_bytes bs = ip)
  /\ (ip < 0 \/ 2 ^ 32 <= ip -> ip_int_to_string ip = inl OverflowError).
Proof.
  split.
  - intros Hip. unfold ip_int_to_string, int_to_bytes.
    replace ((0 <=? ip) && (ip <? 2 ^ (8 * Z.of_nat 4))) with true
      by (symmetry; apply andb_true_intro; split; [apply Z.leb_le|apply Z.ltb_lt]; cbn; lia).
    pose proof (int_from_bytes_be_digits 4 ip) as Hv.
    pose proof (be_digits_length 4 ip) as Hl.
    destruct (be_digits 4 ip) as [|b0 [|b1 [|b2 [|b3 [|]]]]]; try discriminate.
    cbn [sum_bind py_index]. cbn -[py_str_nonneg byte_val].
    eexists; exists [b0; b1; b2; b3]. split; [reflexivity|]. split.
    + unfold ip_packed. rewrite !list_ascii_of_string_app. cbn [list_ascii_of_string app].
      destruct (octet_roundtrip b0) as (N0 & P0 & V0).
      destruct (octet_roundtrip b1) as (N1 & P1 & V1).
      destruct (octet_roundtrip b2) as (N2 & P2 & V2).
      destruct (octet_roundtrip b3) as (N3 & P3 & V3).
      rewrite (split_dots_app _ _ N0), (split_dots_app _ _ N1), (split_dots_app _ _ N2),
        (split_dots_nodot _ N3).
      cbn [sum_bind]. rewrite P0, P1, P2, P3. cbn [sum_bind map].
      rewrite V0, V1, V2, V3. reflexivity.
    + rewrite Hv. apply Z.mod_small. cbn. lia.
  - intros Hip. unfold ip_int_to_string, int_to_bytes.
    replace ((0 <=? ip) && (ip <? 2 ^ (8 * Z.of_nat 4))) with false; [reflexivity|].
    destruct Hip as [Hn|Hn].
    + replace (0 <=? ip) with false by (symmetry; apply Z.leb_gt; lia). reflexivity.
    + replace (ip <? 2 ^ (8 * Z.of_nat 4)) with false by (symmetry; apply Z.ltb_ge; cbn; lia).
      destruct (0 <=? ip); reflexivity.
Qed.

Lemma get_unit_size_scale (max_unit : Z) :
  (1000 < max_unit <= 10 ^ 18 ->
     fst (get_unit_size max_unit) / 1000 < max_unit <= fst (get_unit_size max_unit))
  /\ (max_unit <= 1000 -> get_unit_size max_unit = (1000, "bps"%string)).
Proof.
  unfold get_unit_size. split; intros Hm;
  repeat match goal with
  | |- context [?a >? ?b] => destruct (Z.gtb_spec a b)
  end; cbn; try reflexivity;
  change (10 ^ 18) with 1000000000000000000 in *;
  match goal with
  | |- ?a / ?b < _ <= _ => let v := eval vm_compute in (a / b) in change (a / b) with v
  | _ => idtac
  end; lia.
Qed.

Lemma driver_flow_counts_rate (time fps : Z) :
  let '(total, fpm) := driver_flow_counts false time fps in
  1 <= fpm /\ total = time * 1000 * fpm
  /\ (1000 <= fps -> 1000 * fpm <= fps < 1000 * fpm + 1000)
  /\ (fps < 2000 -> fpm = 1).
Proof.
  unfold driver_flow_counts; cbn.
  destruct (Z.gtb_spec (fps / 1000) 0) as [Hp|Hp]; (split; [lia|]); (split; [reflexivity|]);
    (split; [intros Hf|intros Hf]).
  - pose proof (Z.mul_div_le fps 1000 ltac:(lia)). pose proof (Z.mod_pos_bound fps 1000 ltac:(lia)).
    pose proof (Z.div_mod fps 1000 ltac:(lia)). lia.
  - assert (fps / 1000 < 2) by (apply Z.div_lt_upper_bound; lia). lia.
  - assert (1 <= fps / 1000) by (apply Z.div_le_lower_bound; lia). lia.
  - reflexivity.
Qed.

Lemma render_logs_last {A} (height : Z) (logs : list A) :
  (2 <= height -> render_logs height logs
                  = inr (skipn (length logs - Z.to_nat (height - 2)) logs))
  /\ (height < 2 -> render_logs height logs = inl IndexError).
Proof.
  unfold render_logs.
  assert (Hgen : forall n (l : list A), (length l < n)%nat ->
    (2 <= height -> trim_logs n height l = inr (skipn (length l - Z.to_nat (height - 2)) l))
    /\ (height < 2 -> trim_logs n height l = inl IndexError)).
  { induction n as [|n IH]; intros l Hl; [lia|].
    split; intros Hh; cbn [trim_logs].
    - destruct (Z.gtb_spec (Z.of_nat (length l)) (height - 2)) as [Hg|Hg].
      + destruct l as [|x l]; [cbn in Hg; lia|].
        rewrite (proj1 (IH l ltac:(cbn in Hl; lia)) Hh).
        cbn [length]. replace (S (length l) - Z.to_nat (height - 2))%nat
          with (S (length l - Z.to_nat (height - 2)))%nat by (cbn in Hg; lia).
        reflexivity.
      + replace (length l - Z.to_nat (height - 2))%nat with O by lia. reflexivity.
    - destruct (Z.gtb_spec (Z.of_nat (length l)) (height - 2)) as [Hg|Hg]; [|lia].
      destruct l as [|x l]; [reflexivity|].
      exact (proj2 (IH l ltac:(cbn in Hl; lia)) Hh). }
  apply Hgen. lia.
Qed.

(** ** Group B *)



Lemma py_index_In {A} (l : list A) (i : Z) (x : A) : py_index l i = inr x -> In x l.
Proof.
  unfold py_index. destruct (_ && _); [|discriminate].
  destruct (nth_error l _) eqn:E; [|discriminate]. intros Hx. injection Hx as <-.
  exact (nth_error_In _ _ E).
Qed.























Lemma to_bytes_fits_ok (f : FlowRecord) (sid : list byte) :
  bytes_fromhex (system_id f) = inr sid -> fits_widths f ->
  exists bs, to_bytes f = inr bs /\ length bs = (49 + length sid)%nat.
Proof.
  intros Hsid Hfit. unfold fits_widths, binary_int_fields in Hfit.
  repeat match goal with
         | H : Forall _ (_ :: _) |- _ => apply Forall_cons_iff in H; destruct H
         end.
  cbn [fst snd] in *.
  eexists. split.
  - unfold to_bytes. rewrite Hsid.
    repeat (rewrite int_to_bytes_fit by assumption). reflexivity.
  - repeat rewrite length_app. repeat rewrite be_digits_length. lia.
Qed.

Lemma py_del_inv {A} (l t : list A) (i : Z) :
  py_del l i = inr t -> t `sublist_of` l /\ S (length t) = length l.
Proof.
  unfold py_del.
  destruct (_ && _) eqn:Hb; [|discriminate].
  apply andb_true_iff in Hb as [Hj1%Z.leb_le Hj2%Z.ltb_lt].
  intros Ht. apply inr_eq in Ht. subst t. split.
  - rewrite <- delete_take_drop. apply sublist_delete.
  - rewrite length_app, length_firstn, length_skipn. lia.
Qed.

Lemma dict_set_In {V} (d : dict V) (k k' : Z) (v v' : V) :
  In (k', v') (dict_set d k v) -> In (k', v') d \/ (k' = k /\ v' = v).
Proof.
  unfold dict_set. destruct (existsb _ d).
  - rewrite in_map_iff. intros ([k1 v1] & E & Hin). cbn in E.
    destruct (k1 =? k); injection E as <- <-; auto.
  - rewrite in_app_iff. intros [Hin|[E|[]]]; [auto|injection E as <- <-; auto].
Qed.

Lemma dict_set_length {V} (d : dict V) (k : Z) (v : V) :
  (length (dict_set d k v) <= S (length d))%nat.
Proof.
  unfold dict_set. destruct (existsb _ d).
  - rewrite length_map. lia.
  - rewrite length_app. cbn. lia.
Qed.

Lemma dict_get_existsb {V} (d : dict V) (k : Z) (v : V) :
  dict_get d k = Some v -> existsb (fun kv => fst kv =? k) d = true.
Proof.
  induction d as [|[k' v'] d IH]; cbn; [discriminate|].
  destruct (k' =? k); [reflexivity|]. intros E. rewrite (IH E). apply orb_true_r.
Qed.

Lemma dict_keys_set_existing {V} (d : dict V) (k : Z) (v v0 : V) :
  dict_get d k = Some v0 -> dict_keys (dict_set d k v) = dict_keys d.
Proof.
  intros E. unfold dict_set, dict_keys. rewrite (dict_get_existsb d k v0 E).
  rewrite map_map. apply map_ext. intros [k' v']. cbn.
  destruct (Z.eqb_spec k' k) as [->|]; reflexivity.
Qed.

Lemma dict_get_set_same {V} (d : dict V) (k : Z) (v : V) :
  dict_get (dict_set d k v) k = Some v.
Proof. rewrite dict_get_set, Z.eqb_refl. reflexivity. Qed.

Lemma dict_get_key_In {V} (d : dict V) (k : Z) (v : V) :
  dict_get d k = Some v -> In k (dict_keys d).
Proof.
  induction d as [|[k' v'] d IH]; cbn; [discriminate|].
  destruct (Z.eqb_spec k' k) as [->|]; [auto|]. intros E. right. exact (IH E).
Qed.

Lemma Forall2_In_r {A B} (R : A -> B -> Prop) (l : list A) (l' : list B) (y : B) :
  Forall2 R l l' -> In y l' -> exists x, In x l /\ R x y.
Proof.
  induction 1 as [|x y' l l' Hxy _ IH]; cbn; [tauto|].
  intros [<-|Hy]; [exists x; auto|]. destruct (IH Hy) as (x' & ? & ?). exists x'; auto.
Qed.

Lemma rng_only_Ok {RS A} (m : M (World RS) A) (w w' : World RS) (a : A) :
  rng_only m -> m w = Ok a w' -> exists g, w' = set_rng g w.
Proof. intros Hm E. destruct (Hm w) as [g Hg]. rewrite E in Hg. eauto. Qed.

Lemma rng_only_ret {RS A} (a : A) : rng_only (RS:=RS) (ret a).
Proof. intros w. exists (rng w). destruct w; reflexivity. Qed.

Lemma rng_only_raise {RS A} (e : exn) : rng_only (RS:=RS) (A:=A) (raise e).
Proof. intros w. exists (rng w). destruct w; reflexivity. Qed.

Lemma rng_only_get {RS} : rng_only (RS:=RS) get.
Proof. intros w. exists (rng w). destruct w; reflexivity. Qed.

Lemma rng_only_lift {RS A} (r : exn + A) : rng_only (RS:=RS) (lift r).
Proof. destruct r; [apply rng_only_raise|apply rng_only_ret]. Qed.

Lemma rng_only_bind {RS A B} (m : M (World RS) A) (k : A -> M (World RS) B) :
  rng_only m -> (forall a, rng_only (k a)) -> rng_only (bind m k).
Proof.
  intros Hm Hk w. destruct (Hm w) as [g1 Hg1]. unfold bind.
  destruct (m w) as [a w1|e w1]; cbn in Hg1 |- *; subst w1; [|eauto].
  destruct (Hk a (set_rng g1 w)) as [g2 Hg2]. exists g2. rewrite Hg2. reflexivity.
Qed.

Lemma clean_loop_filter (i : nat) (A B : list (list string)) (d : Z) (logs : list string)
  (rows' : list (list string)) (d' : Z) (logs' : list string) :
  length A = S i -> clean_loop i (A ++ B) d logs = inr (rows', d', logs') ->
  exists hd tl, A = hd :: tl /\ rows' = hd :: List.filter kept_row tl ++ B
    /\ Forall (fun row => exists r, drop_reason row = inr r) tl
    /\ d' = d + Z.of_nat (length tl - length (List.filter kept_row tl))
    /\ length logs' = (length logs + (length tl - length (List.filter kept_row tl)))%nat.
Proof.
  revert A B d logs; induction i as [|i IH]; intros A B d logs HA E; cbn [clean_loop] in E.
  - destruct A as [|hd [|]]; try discriminate. apply inr_eq in E. injection E as <- <- <-.
    exists hd, []. cbn. repeat split; [constructor|lia|lia].
  - destruct (exists_last (l:=A) ltac:(intros ->; discriminate)) as (A' & x & ->).
    rewrite length_app in HA. cbn in HA.
    assert (Hx : py_index ((A' ++ [x]) ++ B) (Z.of_nat (S i)) = inr x).
    { unfold py_index. rewrite !length_app. cbn [length].
      replace (Z.of_nat (S i) <? 0) with false by (symmetry; apply Z.ltb_ge; lia).
      replace ((0 <=? Z.of_nat (S i)) && (Z.of_nat (S i) <? Z.of_nat (length A' + 1 + length B)))
        with true by (symmetry; apply andb_true_intro; split; [apply Z.leb_le|apply Z.ltb_lt]; lia).
      rewrite Nat2Z.id, <- app_assoc, nth_error_app2 by lia.
      replace (S i - length A')%nat with O by lia. reflexivity. }
    rewrite Hx in E. cbn [sum_bind] in E.
    destruct (drop_reason x) as [e|[why|]] eqn:Ed; cbn [sum_bind] in E; [discriminate| |].
    + destruct (py_index x 2) as [e|t] eqn:E2; cbn [sum_bind] in E; [discriminate|].
      rewrite (py_del_ok ((A' ++ [x]) ++ B) (Z.of_nat (S i))) in E
        by (rewrite !length_app; cbn [length]; lia).
      cbn [sum_bind] in E.
      rewrite Nat2Z.id in E.
      assert (HA' : length A' = S i) by lia.
      replace (firstn (S i) ((A' ++ [x]) ++ B)) with A' in E
        by (rewrite <- app_assoc, <- HA', firstn_app, firstn_all, Nat.sub_diag; cbn;
            rewrite app_nil_r; reflexivity).
      replace (skipn (S (S i)) ((A' ++ [x]) ++ B)) with B in E
        by (rewrite <- app_assoc, <- HA'; clear; induction A' as [|a A' IH]; cbn; auto).
      destruct (IH A' B _ _ ltac:(lia) E) as (hd & tl & -> & Hr & Hall & Hd & Hl).
      exists hd, (tl ++ [x]). split; [reflexivity|].
      assert (Hk : kept_row x = false) by (unfold kept_row; rewrite Ed; reflexivity).
      rewrite List.filter_app. cbn [List.filter]. rewrite Hk, app_nil_r.
      pose proof (List.filter_length_le kept_row tl) as Hf.
      split; [exact Hr|]. split; [apply Forall_app; split; [exact Hall|constructor; eauto]|].
      rewrite ?length_app in *. cbn [length] in *. split; lia.
    + rewrite <- app_assoc in E. cbn [app] in E.
      destruct (IH A' (x :: B) _ _ ltac:(lia) E) as (hd & tl & -> & Hr & Hall & Hd & Hl).
      exists hd, (tl ++ [x]). split; [reflexivity|].
      assert (Hk : kept_row x = true) by (unfold kept_row; rewrite Ed; reflexivity).
      rewrite List.filter_app. cbn [List.filter]. rewrite Hk, <- app_assoc.
      split; [exact Hr|]. split; [apply Forall_app; split; [exact Hall|constructor; eauto]|].
      rewrite length_app, length_app. cbn [length].
      replace (length tl + 1 - (length (List.filter kept_row tl) + 1))%nat
        with (length tl - length (List.filter kept_row tl))%nat by lia.
      split; assumption.
Qed.

(** The cleaning of [get_asns] never examines the first row and keeps it;
    of the other rows it keeps, in order, exactly those its chain of tests
    lets through, each of which was tested without error; [dropped] and
    the number of log messages are the number of rows removed. *)
Lemma clean_asns_filter (rows rows' : list (list string)) (dropped : Z) (logs : list string)
  (Hrun : clean_asns rows = inr (rows', dropped, logs)) :
  match rows with
  | [] => rows' = [] /\ dropped = 0 /\ logs = []
  | hd :: tl =>
      rows' = hd :: List.filter kept_row tl
      /\ Forall (fun row => exists r, drop_reason row = inr r) tl
  end
  /\ Z.of_nat (length rows') + dropped = Z.of_nat (length rows)
  /\ Z.of_nat (length logs) = dropped.
Proof.
  unfold clean_asns in Hrun. destruct rows as [|hd tl].
  - cbn in Hrun. injection Hrun as <- <- <-. cbn. auto.
  - rewrite <- (app_nil_r (hd :: tl)) in Hrun.
    apply clean_loop_filter in Hrun as (hd' & tl' & Heq & Hr & Hall & Hd & Hl);
      [|rewrite app_nil_r; cbn [length]; lia].
    injection Heq as <- <-. rewrite app_nil_r in Hr. subst rows'.
    pose proof (List.filter_length_le kept_row tl) as Hf.
    cbn [length] in *. split; [auto|]. split; lia.
Qed.

Lemma fromhex_chars_err (cs : list ascii) (e : exn) : fromhex_chars cs = inl e -> e = ValueError.
Proof.
  remember (length cs) as n eqn:Hn. revert cs Hn.
  induction n as [n IH] using (well_founded_induction lt_wf). intros cs Hn.
  destruct cs as [|c0 cs]; [discriminate|]. cbn [fromhex_chars].
  destruct (is_py_space c0); [apply (IH (length cs) ltac:(cbn in Hn; lia) cs eq_refl)|].
  destruct cs as [|d rest]; [congruence|].
  destruct (hex_val c0), (hex_val d); try congruence.
  destruct (fromhex_chars rest) eqn:E; [|discriminate].
  intros [= <-]. exact (IH (length rest) ltac:(cbn in Hn; lia) rest eq_refl E).
Qed.

Lemma int_to_bytes_inv (v : Z) (n : nat) (r : exn + list byte) :
  int_to_bytes v n = r ->
  (r = inl OverflowError /\ ~ (0 <= v < 2 ^ (8 * Z.of_nat n)))
  \/ (0 <= v < 2 ^ (8 * Z.of_nat n) /\ r = inr (be_digits n v)).
Proof.
  unfold int_to_bytes. intros <-.
  destruct (Z.leb_spec 0 v), (Z.ltb_spec v (2 ^ (8 * Z.of_nat n))); cbn; [right|left..]; split; auto; lia.
Qed.

(** [to_bytes] succeeds exactly when every integer field fits its width and
    [system_id] is hex; it raises [OverflowError] for a field that does not
    fit and [ValueError] for a system id that is not hex, the first failing
    piece in the order of the expression deciding which. *)
Lemma to_bytes_errors (f : FlowRecord) :
  ((exists bs, to_bytes f = inr bs)
     <-> fits_widths f /\ exists sid, bytes_fromhex (system_id f) = inr sid)
  /\ (forall e, to_bytes f = inl e -> e = OverflowError \/ e = ValueError)
  /\ (~ (0 <= timestamp f < 2 ^ 48) -> to_bytes f = inl OverflowError)
  /\ (0 <= timestamp f < 2 ^ 48 -> forall e, bytes_fromhex (system_id f) = inl e ->
      to_bytes f = inl ValueError).
Proof.
  split; [split|split; [|split]].
  - intros [bs E]. unfold to_bytes in E.
    repeat match type of E with
           | context [sum_bind (int_to_bytes ?v ?n) _] =>
               let H := fresh "Hw" in
               let R := fresh "R" in
               destruct (int_to_bytes_inv v n _ eq_refl) as [[R _]|[H R]];
               rewrite R in E; clear R; cbn [sum_bind] in E; [discriminate|]
           | context [sum_bind (bytes_fromhex ?s) _] =>
               let H := fresh "Hs" in
               destruct (bytes_fromhex s) eqn:H; cbn [sum_bind] in E; [discriminate|]
           end.
    split; [|eauto].
    unfold fits_widths, binary_int_fields.
    repeat (apply List.Forall_cons; [cbn [fst snd]; assumption|]). apply List.Forall_nil.
  - intros [Hfit [sid Hsid]].
    destruct (to_bytes_fits_ok f sid Hsid Hfit) as (bs & E & _). eauto.
  - intros e E. unfold to_bytes in E.
    repeat match type of E with
           | context [sum_bind (int_to_bytes ?v ?n) _] =>
               let R := fresh "R" in
               destruct (int_to_bytes_inv v n _ eq_refl) as [[R _]|[_ R]];
               rewrite R in E; clear R; cbn [sum_bind] in E; [injection E as <-; left; reflexivity|]
           | context [sum_bind (bytes_fromhex ?s) _] =>
               let H := fresh "Hs" in
               destruct (bytes_fromhex s) as [e'|] eqn:H; cbn [sum_bind] in E;
               [injection E as <-; right; exact (fromhex_chars_err _ _ H)|]
           end.
    discriminate.
  - intros Ht. unfold to_bytes.
    destruct (int_to_bytes_inv (timestamp f) 6 _ eq_refl) as [[R _]|[H _]]; [rewrite R; reflexivity|].
    contradiction.
  - intros Ht e He. unfold to_bytes.
    destruct (int_to_bytes_inv (timestamp f) 6 _ eq_refl) as [[_ H]|[_ R]]; [contradiction|rewrite R].
    cbn [sum_bind]. rewrite He. cbn [sum_bind].
    rewrite (fromhex_chars_err _ _ He). reflexivity.
Qed.

Section MoreMethods.
Context {RS : Type} `{Rng RS}.
#[local] Abbreviation W := (World RS).

Lemma randrange_Ok_inv (a b v : Z) (w w' : W) :
  randrange a b w = Ok v w' -> a < b /\ exists g, w' = set_rng g w /\ v - a = fst (randbelow (rng w) (b - a)).
Proof.
  unfold randrange. destruct (Z.leb_spec (b - a) 0); [unfold raise; discriminate|].
  destruct (randbelow (rng w) (b - a)) as [x g] eqn:E. intros Hr. injection Hr as <- <-.
  split; [lia|]. exists g. split; [reflexivity|]. cbn. lia.
Qed.

Lemma randrange_empty (a b : Z) (w : W) : b <= a -> randrange a b w = Err ValueError w.
Proof. intros Hb. unfold randrange. replace (b - a <=? 0) with true by (symmetry; apply Z.leb_le; lia). reflexivity. Qed.


Lemma dict_get_In {V} (d : dict V) (k : Z) (v : V) : dict_get d k = Some v -> In (k, v) d.
Proof.
  induction d as [|[k' v'] d IH]; cbn; [discriminate|].
  destruct (Z.eqb_spec k' k) as [->|_]; [intros [= ->]; left; reflexivity|].
  intros E. right. exact (IH E).
Qed.

Lemma dict_get_keys {V} (d : dict V) (k : Z) : In k (dict_keys d) -> exists v, dict_get d k = Some v.
Proof.
  induction d as [|[k' v'] d IH]; cbn; [tauto|].
  destruct (Z.eqb_spec k' k) as [->|Hne]; [eauto|].
  intros [->|Hk]; [congruence|exact (IH Hk)].
Qed.

Lemma random_server_empty (w : W) :
  server_list w = [] -> random_server w = Err ValueError w.
Proof. intros Hn. unfold random_server, bind, get. rewrite Hn. reflexivity. Qed.

Lemma random_client_empty (w : W) :
  route_table w = [] -> random_client w = Err ValueError w.
Proof. intros Hn. unfold random_client, bind, get. rewrite Hn. reflexivity. Qed.

Lemma random_server_Ok (w : W) :
  forall v w', random_server w = Ok v w' -> In v (server_list w) /\ exists g, w' = set_rng g w.
Proof.
  intros v w' E. unfold random_server in E. inv_binds E.
  injection E0 as <- <-.
  apply randrange_Ok_inv in E1 as [_ [g [-> _]]].
  apply lift_Ok_inv in E as [Hv ->].
  split; [exact (py_index_In _ _ _ Hv)|exists g; reflexivity].
Qed.

(** The fixed and mirrored fields of a generated pair. *)
Lemma generate_flow_record_mirror_post (t : Z) :
  ok_post (generate_flow_record t)
    (fun p => let c := fst p in let s := snd p in
      srcaddr s = dstaddr c /\ dstaddr s = srcaddr c
      /\ srcport s = dstport c /\ dstport s = srcport c
      /\ src_as s = dst_as c /\ dst_as s = src_as c
      /\ src_mask s = dst_mask c /\ dst_mask s = src_mask c
      /\ input s = output c /\ output s = input c
      /\ system_id s = system_id c /\ last c = t /\ last s = t
      /\ protocol c = 6 /\ protocol s = 6 /\ tcp_flags c = 0 /\ tcp_flags s = 0
      /\ tos c = 0 /\ tos s = 0
      /\ dst_as c = INTERNAL_ASN /\ dst_mask c = INTERNAL_SUBNET
      /\ output c = ni_ifindex INTERNAL_IFINDEX
      /\ nexthop c = 167837954).
Proof.
  unfold generate_flow_record.
  repeat first
    [ eapply ok_post_bind;
        [apply (ok_post_lift (opt_raise KeyError (ni_next_hop_i INTERNAL_IFINDEX))
                  (fun v => v = 167837954));
         intros ? E; cbn in E; congruence
        | intros ? ?]
    | eapply ok_post_bind; [apply ok_post_true | intros ? _]
    | progress cbv zeta
    | match goal with
      | |- ok_post (match ?c with (_, _) => _ end) _ => destruct c
      end ].
  apply ok_post_ret. cbv beta in *. subst. cbn. repeat split.
Qed.

Lemma select_routes_Ok (xs : list Z) (k : Z) (st : list Z) (nt r : dict ASNRoute) (w w' : W) :
  select_routes xs k st nt w = Ok r w' ->
  asn_table w' `sublist_of` asn_table w
  /\ (length (asn_table w') + length xs = length (asn_table w))%nat
  /\ (length r <= length nt + length xs)%nat
  /\ forall key v, In (key, v) r -> In (key, v) nt \/ row_route (asn_table w) key v.
Proof.
  revert nt w; induction xs as [|x xs IH]; intros nt w E; cbn [select_routes] in E.
  - unfold ret in E. injection E as <- <-. cbn.
    split; [reflexivity|]. split; [lia|]. split; [lia|]. auto.
  - inv_binds E. cbv beta zeta in E. inv_binds E.
    injection E0 as <- <-.
    apply randrange_Ok_inv in E1 as [_ [g1 [-> _]]].
    apply lift_Ok_inv in E14 as [Hdel ->].
    apply lift_Ok_inv in E2 as [Hrow0 ->].
    apply lift_Ok_inv in E3 as [_ ->].
    apply lift_Ok_inv in E4 as [Hna ->].
    apply lift_Ok_inv in E5 as [Hba ->].
    apply lift_Ok_inv in E6 as [Hrs ->].
    apply lift_Ok_inv in E7 as [Hre ->].
    apply lift_Ok_inv in E8 as [Ha ->].
    apply lift_Ok_inv in E9 as [Hc ->].
    apply lift_Ok_inv in E10 as [Hd ->].
    apply lift_Ok_inv in E11 as [_ ->].
    unfold say, modify in E12. injection E12 as <- <-.
    unfold get in E13. injection E13 as <- <-.
    unfold modify in E15. injection E15 as <- <-.
    apply IH in E as (Hsub & Hlen & Hr & Hin).
    cbn [asn_table set_asn_table add_log set_rng] in *.
    apply py_del_inv in Hdel as [Hdsub Hdlen].
    split; [etransitivity; eassumption|].
    split; [cbn [length]; lia|].
    split; [pose proof (dict_set_length nt (asn (mkRoute a2 a3 a4 None (a5 + 2) (a6 - 1) a7 a8 a9 None))
                         (mkRoute a2 a3 a4 None (a5 + 2) (a6 - 1) a7 a8 a9 None));
            cbn [length]; lia|].
    intros key v Hkv.
    destruct (Hin key v Hkv) as [Hnt|Hrow].
    + apply dict_set_In in Hnt as [Hnt|[-> ->]]; [left; exact Hnt|right].
      assert (a5 = a3) by congruence. assert (a6 = a4) by congruence. subst a5 a6.
      cbn. repeat split; try reflexivity.
      exists a1. repeat split; try assumption.
      eapply py_index_In; eassumption.
    + right. destruct Hrow as (? & ? & ? & ? & ? & row & Hrow & ?).
      repeat split; try assumption. exists row. split; [|assumption].
      apply list_elem_of_In, (sublist_subseteq _ _ Hdsub), list_elem_of_In, Hrow.
Qed.

(** [random_asns k] deletes exactly [k] rows from the caller's table
    (keeping the others in order) and returns at most [k] routes, each
    stored under its ASN and built from one of the table's rows: network
    and broadcast addresses from columns 0 and 1, usable range from
    [network + 2] to [broadcast - 1], no next hop or ifindex yet. *)
Lemma random_asns_Ok (k : Z) (w w' : W) (r : dict ASNRoute)
  (Hrun : random_asns k w = Ok r w') :
  asn_table w' `sublist_of` asn_table w
  /\ (length (asn_table w') + Z.to_nat k = length (asn_table w))%nat
  /\ (length r <= Z.to_nat k)%nat
  /\ forall key v, In (key, v) r -> row_route (asn_table w) key v.
Proof.
  unfold random_asns, bind at 1, get in Hrun.
  destruct (_ <? k); [unfold raise in Hrun; discriminate|].
  apply select_routes_Ok in Hrun as (Hsub & Hlen & Hr & Hin).
  unfold py_range in *. rewrite length_map, length_seq, Z.sub_0_r in *. cbn [length] in Hr.
  split; [exact Hsub|]. split; [exact Hlen|]. split; [exact Hr|].
  intros key v Hkv. destruct (Hin key v Hkv) as [[]|Hrow]. exact Hrow.
Qed.

Lemma assign_next_hops_Ok (keys : list Z) (intf : option NetworkInterface)
  (d r : dict ASNRoute) (w w' : W) :
  assign_next_hops keys intf d w = Ok r w' ->
  peering w' = peering w /\ dict_keys r = dict_keys d
  /\ forall k v0, dict_get d k = Some v0 ->
       exists v, dict_get r k = Some v /\ same_route_data v v0
         /\ (In k keys -> exists ni nh, In ni (peering w) /\ ni_next_hop_i ni = Some nh
                                       /\ next_hop v = Some nh)
         /\ (~ In k keys -> v = v0).
Proof.
  revert d w; induction keys as [|k0 keys IH]; intros d w Hrun; cbn [assign_next_hops] in Hrun.
  - unfold ret in Hrun. injection Hrun as <- <-.
    split; [reflexivity|]. split; [reflexivity|].
    intros k v0 Hv0. exists v0. split; [exact Hv0|].
    split; [unfold same_route_data; tauto|]. split; [intros []|auto].
  - inv_binds Hrun.
    unfold get in E. injection E as <- <-.
    apply randrange_Ok_inv in E0 as [_ [g [-> _]]].
    apply lift_Ok_inv in E1 as [Eni ->].
    apply lift_Ok_inv in E2 as [Enh ->].
    apply lift_Ok_inv in E3 as [Er ->].
    apply lift_Ok_inv in E4 as [_ ->].
    apply lift_Ok_inv in E5 as [Er1 ->].
    apply IH in Hrun as (Hp & Hk & Hv). cbn [peering set_rng] in Hp, Hv.
    destruct (ni_next_hop_i a1) as [nh|] eqn:Enh'; cbn in Enh; [apply inr_eq in Enh; subst a2|discriminate].
    destruct (dict_get d k0) as [r0|] eqn:Er0; cbn in Er; [apply inr_eq in Er; subst a3|discriminate].
    rewrite dict_get_set, Z.eqb_refl in Er1. cbn in Er1. apply inr_eq in Er1. subst a5.
    split; [exact Hp|]. split.
    { rewrite Hk. rewrite (dict_keys_set_existing _ _ _ _ (dict_get_set_same _ k0 _)).
      exact (dict_keys_set_existing _ _ _ _ Er0). }
    intros k v0 Hk0.
    destruct (Z.eqb_spec k0 k) as [<-|Hne].
    + rewrite Er0 in Hk0. injection Hk0 as <-.
      destruct (Hv k0 _ (dict_get_set_same _ k0 _))
        as (v & Ev & Hsame & Hin & Hnin).
      exists v. split; [exact Ev|]. split.
      { unfold same_route_data in *. cbn in Hsame. tauto. }
      split; [|intros Hn; exfalso; apply Hn; left; reflexivity].
      intros _. destruct (in_dec Z.eq_dec k0 keys) as [Hk1|Hk1].
      * exact (Hin Hk1).
      * rewrite (Hnin Hk1). exists a1, nh. split; [exact (py_index_In _ _ _ Eni)|]. auto.
    + assert (Hg : dict_get (dict_set (dict_set d k0
                     (mkRoute (subnet_bits r0) (network_address r0) (broadcast_address r0) (Some nh)
                        (ip_range_start r0) (ip_range_end r0) (asn r0) (country r0)
                        (as_description r0) (ifindex r0))) k0
                     (mkRoute (subnet_bits r0) (network_address r0) (broadcast_address r0) (Some nh)
                        (ip_range_start r0) (ip_range_end r0) (asn r0) (country r0)
                        (as_description r0) (Some (ni_ifindex a4)))) k = Some v0).
      { rewrite !dict_get_set. apply Z.eqb_neq in Hne. rewrite Hne. exact Hk0. }
      destruct (Hv k v0 Hg) as (v & Ev & Hsame & Hin & Hnin).
      exists v. split; [exact Ev|]. split; [exact Hsame|]. split.
      * intros [Hk1|Hk1]; [congruence|exact (Hin Hk1)].
      * intros Hn. apply Hnin. intros Hk1. apply Hn. right. exact Hk1.
Qed.

Lemma resolve_interfaces_Ok (before after : list NetworkInterface)
  (intf li : option NetworkInterface) (w w' : W) :
  resolve_interfaces before after intf w = Ok li w' -> peering w = before ++ after ->
  exists resolved, peering w' = before ++ resolved /\ Forall2 resolved_iface after resolved
    /\ route_table w' = route_table w.
Proof.
  revert before intf w; induction after as [|i rest IH]; intros before intf w Hrun Hp;
    cbn [resolve_interfaces] in Hrun.
  - unfold ret in Hrun. injection Hrun as <- <-. exists []. auto.
  - inv_binds Hrun.
    apply lift_Ok_inv in E as [Eb ->].
    unfold modify in E0. injection E0 as <- <-.
    apply IH in Hrun as (resolved & Hp' & HF & Hrt); [|cbn; rewrite <- app_assoc; reflexivity].
    exists (mkIface (ni_ifindex i) (ni_next_hop i) (Some a) (Some (int_from_bytes a)) :: resolved).
    split; [rewrite Hp', <- app_assoc; reflexivity|]. split; [|exact Hrt].
    constructor; [|exact HF].
    split; [reflexivity|]. split; [reflexivity|]. exists a. auto.
Qed.

(** [make_route_table] keeps the table's keys and, for each key, the
    route's data; it gives every route a next hop that is the integer of
    one peering interface's address, records the packed and integer
    address on each interface, and stores the table as [route_table]. *)
Lemma make_route_table_Ok (asns r : dict ASNRoute) (w w' : W)
  (Hrun : make_route_table asns w = Ok r w') :
  route_table w' = r /\ dict_keys r = dict_keys asns
  /\ Forall2 resolved_iface (peering w) (peering w')
  /\ forall k v0, dict_get asns k = Some v0 ->
       exists v, dict_get r k = Some v /\ same_route_data v v0
         /\ exists i b, In i (peering w) /\ ip_packed (ni_next_hop i) = inr b
              /\ next_hop v = Some (int_from_bytes b).
Proof.
  unfold make_route_table in Hrun. inv_binds Hrun.
  unfold get in E. injection E as <- <-.
  apply resolve_interfaces_Ok in E0 as (resolved & Hp & HF & _); [|reflexivity].
  apply assign_next_hops_Ok in E1 as (Hp1 & Hk & Hv).
  unfold modify in E2. injection E2 as <- <-.
  unfold ret in Hrun. injection Hrun as <- <-.
  cbn [route_table peering set_route_table].
  split; [reflexivity|]. split; [exact Hk|]. split; [rewrite Hp1, Hp; exact HF|].
  intros k v0 Hv0.
  destruct (Hv k v0 Hv0) as (v & Ev & Hsame & Hin & _).
  exists v. split; [exact Ev|]. split; [exact Hsame|].
  destruct (Hin (dict_get_key_In _ _ _ Hv0)) as (ni & nh & Hni & Enh & Ehop).
  rewrite Hp in Hni. cbn in Hni.
  destruct (Forall2_In_r _ _ _ _ HF Hni) as (i & Hi & _ & _ & b & Eb & _ & Ei).
  exists i, b. split; [exact Hi|]. split; [exact Eb|]. congruence.
Qed.

Lemma rng_only_randrange (a b : Z) : rng_only (randrange a b).
Proof.
  intros w. unfold randrange. destruct (_ <=? 0).
  - exists (rng w). destruct w; reflexivity.
  - destruct (randbelow (rng w) (b - a)) as [v g]. exists g. reflexivity.
Qed.

Create HintDb rng_only_db.
#[local] Hint Resolve rng_only_ret rng_only_raise rng_only_get rng_only_lift rng_only_randrange : rng_only_db.

Ltac rng_only_step :=
  first
    [ apply rng_only_bind; [| intros ?]
    | progress cbv zeta
    | progress unfold randint
    | match goal with
      | |- rng_only (match ?p with (_, _) => _ end) => destruct p
      end
    | solve [auto with rng_only_db] ].

Lemma rng_only_random_client : rng_only random_client.
Proof. unfold random_client. repeat rng_only_step. Qed.

Lemma rng_only_generate_flow_record (t : Z) : rng_only (generate_flow_record t).
Proof. unfold generate_flow_record, random_client, random_server. repeat rng_only_step. Qed.

Lemma fill_ms_rng_only (n : nat) (fpm t : Z) (flows : list FlowRecord)
  (b : gmap Z (list FlowRecord)) : rng_only (fill_ms n fpm t flows b).
Proof.
  revert flows b; induction n as [|n IH]; intros flows b; cbn [fill_ms].
  - apply rng_only_ret.
  - destruct (_ <? _); [|apply rng_only_ret].
    apply rng_only_bind; [apply rng_only_generate_flow_record|intros p; apply IH].
Qed.





(** [generate_data] divides by [sampling_rate] before anything else, and
    with no route or no server the first [generate_flow_record] call,
    made before the loop, fails: the [finally] clause then raises
    [NameError] (its [del flows] names a variable never bound), after
    both CSV files were truncated. *)
Lemma generate_data_setup_errors (fuel : nat) (ftm fpm R : Z) (w : W) :
  (R = 0 -> generate_data fuel ftm fpm R w = Err ZeroDivisionError w)
  /\ (R <> 0 -> route_table w = [] \/ server_list w = [] ->
      exists w', generate_data fuel ftm fpm R w = Err NameError w'
                 /\ raw_csv w' = [] /\ sampled_csv w' = []).
Proof.
  split.
  - intros ->. reflexivity.
  - intros HR Hempty.
    set (w0 := open_csv_files (add_log (LogText "Creating files") w)).
    assert (Hg : exists e g, generate_flow_record 0 w0 = Err e (set_rng g w0)).
    { unfold generate_flow_record, bind at 1.
      destruct Hempty as [Hr|Hs].
      - rewrite (random_client_empty w0 Hr). exists ValueError, (rng w0). destruct w; reflexivity.
      - destruct (random_client w0) as [c w1|e w1] eqn:Ec.
        + destruct (rng_only_Ok _ _ _ _ rng_only_random_client Ec) as [g ->].
          unfold bind at 1. rewrite (random_server_empty (set_rng g w0) Hs). eauto.
        + destruct (rng_only_random_client w0) as [g Hg]. rewrite Ec in Hg. cbn in Hg. subst w1. eauto. }
    destruct Hg as (e & g & Eg).
    exists (set_rng g w0). split; [|split; reflexivity].
    unfold generate_data, generate_data_run.
    replace (R =? 0) with false by (symmetry; apply Z.eqb_neq; exact HR).
    unfold bind at 1 2 3 4 5, say, modify, remap_err. fold w0. rewrite Eg. reflexivity.
Qed.

(** In a generated pair the server record mirrors the client record:
    addresses, ports, ASNs, masks and interfaces swapped, the same system
    id and [last]; both are TCP with no flags and no type of service, and
    the client record is addressed into the internal network through
    [INTERNAL_IFINDEX]. *)
Lemma generate_flow_record_mirror (t : Z) (w w' : W) (c s : FlowRecord) :
  generate_flow_record t w = Ok (c, s) w' ->
  srcaddr s = dstaddr c /\ dstaddr s = srcaddr c
  /\ srcport s = dstport c /\ dstport s = srcport c
  /\ src_as s = dst_as c /\ dst_as s = src_as c
  /\ src_mask s = dst_mask c /\ dst_mask s = src_mask c
  /\ input s = output c /\ output s = input c
  /\ system_id s = system_id c /\ last c = t /\ last s = t
  /\ protocol c = 6 /\ protocol s = 6 /\ tcp_flags c = 0 /\ tcp_flags s = 0
  /\ tos c = 0 /\ tos s = 0
  /\ dst_as c = INTERNAL_ASN /\ dst_mask c = INTERNAL_SUBNET
  /\ output c = ni_ifindex INTERNAL_IFINDEX
  /\ nexthop c = 167837954.
Proof. intros E. exact (generate_flow_record_mirror_post t w (c, s) w' E). Qed.

Section WithRange2.
Hypothesis randbelow_range : forall (g : RS) (n : Z), 0 < n -> 0 <= fst (randbelow g n) < n.

Lemma random_server_succeeds (w : W) :
  server_list w <> [] -> exists v w', random_server w = Ok v w'.
Proof.
  intros Hn. unfold random_server, bind at 1, get.
  destruct (randrange_ok randbelow_range 0 (Z.of_nat (length (server_list w))) w)
    as (i & w1 & Ei & Hi & _).
  { destruct (server_list w); [congruence|cbn; lia]. }
  unfold bind. rewrite Ei.
  destruct (py_index_ok (server_list w) i) as (x & Ex & _).
  { unfold randrange in Ei. destruct (_ <=? 0); [discriminate|].
    destruct (randbelow _ _). injection Ei as _ <-. exact Hi. }
  rewrite Ex. eauto.
Qed.

(** [random_server] picks an address of [server_list], drawing once; on
    an empty list [randrange(0, 0)] raises [ValueError]. *)
Lemma random_server_spec (w : W) :
  (server_list w = [] -> random_server w = Err ValueError w)
  /\ (forall v w', random_server w = Ok v w' -> In v (server_list w) /\ exists g, w' = set_rng g w)
  /\ (server_list w <> [] -> exists v w', random_server w = Ok v w').
Proof.
  split; [|split].
  - exact (random_server_empty w).
  - exact (random_server_Ok w).
  - exact (random_server_succeeds w).
Qed.

Lemma random_client_Ok (w : W) :
  forall ip nh sub a ifx w', random_client w = Ok (ip, nh, sub, a, ifx) w' ->
    (exists key r, dict_get (route_table w) key = Some r /\ In (key, r) (route_table w)
      /\ ip_range_start r <= ip < ip_range_end r /\ next_hop r = Some nh
      /\ ifindex r = Some ifx /\ sub = subnet_bits r /\ a = asn r)
    /\ exists g, w' = set_rng g w.
Proof.
  intros ip nh sub a ifx w' E. unfold random_client in E. inv_binds E.
  injection E0 as <- <-.
  apply randrange_Ok_inv in E1 as [_ [g1 [-> _]]].
  apply lift_Ok_inv in E2 as [Hk ->].
  apply lift_Ok_inv in E3 as [Hr ->].
  destruct (dict_get (route_table w) a2) as [r|] eqn:Er; cbn in Hr; [|discriminate].
  apply inr_eq in Hr. subst a3.
  pose proof (ok_post_randrange randbelow_range _ _ _ _ _ E4) as Hip.
  apply randrange_Ok_inv in E4 as [_ [g2 [-> _]]].
  apply lift_Ok_inv in E5 as [Hnh ->].
  apply lift_Ok_inv in E6 as [Hif ->].
  unfold ret in E. injection E as <- <- <- <- <- <-.
  destruct (next_hop r) eqn:?; cbn in Hnh; [|discriminate].
  destruct (ifindex r) eqn:?; cbn in Hif; [|discriminate].
  apply inr_eq in Hnh, Hif. subst.
  split; [|exists g2; reflexivity].
  exists a2, r. cbn in Hip. repeat split; auto using dict_get_In; lia.
Qed.

Lemma random_client_succeeds (w : W) :
  route_table w <> [] ->
  Forall (fun kr => ip_range_start (snd kr) < ip_range_end (snd kr)
                    /\ next_hop (snd kr) <> None /\ ifindex (snd kr) <> None) (route_table w) ->
  exists c w', random_client w = Ok c w'.
Proof.
  intros Hn Hall. unfold random_client, bind at 1, get.
  destruct (randrange_ok randbelow_range 0 (Z.of_nat (length (route_table w))) w)
    as (i & w1 & Ei & Hi & _).
  { destruct (route_table w); [congruence|cbn; lia]. }
  unfold bind at 1. rewrite Ei.
  destruct (py_index_ok (dict_keys (route_table w)) i) as (key & Ek & _).
  { unfold dict_keys. rewrite length_map. lia. }
  unfold bind at 1. rewrite Ek, lift_inr.
  destruct (dict_get_keys (route_table w) key) as [r Er].
  { exact (py_index_In _ _ _ Ek). }
  unfold bind at 1. rewrite Er. cbn [opt_raise]. rewrite lift_inr.
  apply dict_get_In in Er. rewrite List.Forall_forall in Hall.
  destruct (Hall _ Er) as (Hlt & Hnh & Hif). cbn [snd] in *.
  destruct (randrange_ok randbelow_range (ip_range_start r) (ip_range_end r) w1)
    as (ip & w2 & Eip & _); [exact Hlt|].
  unfold bind at 1. rewrite Eip.
  destruct (next_hop r) as [nh|]; [|congruence].
  destruct (ifindex r) as [ifx|]; [|congruence].
  cbn. eauto.
Qed.

(** [random_client] draws a route of [route_table] and an address of its
    usable range, and reports that route's next hop, subnet, ASN and
    ifindex; an empty table raises [ValueError], and it succeeds whenever
    every route has a non-empty range and both [make_route_table] fields. *)
Lemma random_client_spec (w : W) :
  (route_table w = [] -> random_client w = Err ValueError w)
  /\ (forall ip nh sub a ifx w', random_client w = Ok (ip, nh, sub, a, ifx) w' ->
        (exists key r, dict_get (route_table w) key = Some r /\ In (key, r) (route_table w)
          /\ ip_range_start r <= ip < ip_range_end r /\ next_hop r = Some nh
          /\ ifindex r = Some ifx /\ sub = subnet_bits r /\ a = asn r)
        /\ exists g, w' = set_rng g w)
  /\ (route_table w <> [] ->
      Forall (fun kr => ip_range_start (snd kr) < ip_range_end (snd kr)
                        /\ next_hop (snd kr) <> None /\ ifindex (snd kr) <> None) (route_table w) ->
      exists c w', random_client w = Ok c w').
Proof.
  split; [|split].
  - exact (random_client_empty w).
  - exact (random_client_Ok w).
  - exact (random_client_succeeds w).
Qed.

Ltac gfr_steps rr :=
  repeat first
    [ eapply ok_post_bind; [apply (ok_post_randint rr) | intros ? ?]
    | eapply ok_post_bind; [apply (ok_post_randrange rr) | intros ? ?]
    | eapply ok_post_bind;
        [apply (ok_post_lift (py_index SERVER_PORT _) (fun v => In v SERVER_PORT));
         intros ? ?; eapply py_index_In; eassumption
        | intros ? ?]
    | eapply ok_post_bind; [apply ok_post_true | intros ? _]
    | progress cbv zeta
    | match goal with
      | |- ok_post (match ?c with (_, _) => _ end) _ => destruct c
      end ].

(** The drawn quantities of a generated pair. *)
Lemma generate_flow_record_ranges_post (t : Z) :
  ok_post (generate_flow_record t)
    (fun p => let c := fst p in let s := snd p in
      ((MIN_HEAVY_PACKET_BYTES <= dOctets c <= MAX_HEAVY_PACKET_BYTES
        /\ MIN_LIGHT_PACKET_BYTES <= dOctets s <= MAX_LIGHT_PACKET_BYTES)
       \/ (MIN_LIGHT_PACKET_BYTES <= dOctets c <= MAX_LIGHT_PACKET_BYTES
        /\ MIN_HEAVY_PACKET_BYTES <= dOctets s <= MAX_HEAVY_PACKET_BYTES))
      /\ dPkts c = dOctets c / 1200 /\ dPkts s = dOctets s / 1200
      /\ t - 60000 <= first c <= t - 1 /\ t - 60000 <= first s <= t - 1
      /\ fst EPHEMERAL_PORTS <= srcport c <= snd EPHEMERAL_PORTS
      /\ In (dstport c) SERVER_PORT
      /\ timestamp c = t
      /\ t + SERVER_LATENCY <= timestamp s <= t + SERVER_LATENCY + MAX_JITTER - 1).
Proof.
  unfold generate_flow_record. gfr_steps randbelow_range.
  apply ok_post_ret. cbn [fst snd dOctets dPkts first srcport dstport timestamp].
  unfold heavy_split, SERVER_LATENCY, MAX_JITTER, EPHEMERAL_PORTS,
    MIN_HEAVY_PACKET_BYTES, MAX_HEAVY_PACKET_BYTES, MIN_LIGHT_PACKET_BYTES,
    MAX_LIGHT_PACKET_BYTES, SERVER_AS_SOURCE_WEIGHT in *.
  cbn [fst snd] in *.
  match goal with |- context [?d >? 85] => destruct (d >? 85) end;
    cbn [fst snd]; repeat split; auto; lia.
Qed.

(** Where the fields of a generated pair come from: the client side of a
    route of [route_table], the server side of [server_list], the system
    id of the generator; only the random source changes. *)
Lemma generate_flow_record_sources_Ok (t : Z) (w w' : W) (c s : FlowRecord) :
  generate_flow_record t w = Ok (c, s) w' ->
  (exists key r, dict_get (route_table w) key = Some r /\ In (key, r) (route_table w)
     /\ ip_range_start r <= srcaddr c < ip_range_end r
     /\ next_hop r = Some (nexthop s) /\ ifindex r = Some (input c)
     /\ src_mask c = subnet_bits r /\ src_as c = asn r)
  /\ In (dstaddr c) (server_list w)
  /\ system_id c = self_system_id w /\ system_id s = self_system_id w
  /\ exists g, w' = set_rng g w.
Proof.
  intros E. unfold generate_flow_record in E.
  apply bind_Ok_inv in E as (cl & w1 & Ec & E).
  destruct cl as [[[[ip nh] sub] a] ifx].
  apply random_client_Ok in Ec as [Hroute [g1 ->]].
  apply bind_Ok_inv in E as (sv & w2 & Es & E).
  apply random_server_Ok in Es as [Hsv [g2 ->]].
  inv_binds E. cbv beta iota zeta in E. inv_binds E.
  repeat match goal with
         | E : randint _ _ _ = Ok _ _ |- _ => unfold randint in E
         | E : randrange _ _ _ = Ok _ _ |- _ =>
             apply randrange_Ok_inv in E as [_ [? [-> _]]]
         | E : lift _ _ = Ok _ _ |- _ => apply lift_Ok_inv in E as [? ->]
         | E : get _ = Ok _ _ |- _ => injection E as <- <-
         end.
  unfold ret in E. injection E as <- <- <-. cbn.
  split; [|split; [exact Hsv|split; [reflexivity|split; [reflexivity|eexists; reflexivity]]]].
  destruct Hroute as (key & r & Hr & Hin & Hip & Hnh & Hif & -> & ->).
  exists key, r. repeat split; try assumption; lia.
Qed.

(** A generated pair serialises when the route table, the server list,
    the system id and the tick fit the binary layout. *)
Lemma generate_flow_record_serialises (t : Z) (w w' : W) (c s : FlowRecord) (sid : list byte) :
  Forall (fun kr => route_fits (snd kr)) (route_table w) ->
  Forall (fun a => 0 <= a < 2 ^ 32) (server_list w) ->
  bytes_fromhex (self_system_id w) = inr sid ->
  0 <= t -> t + SERVER_LATENCY + MAX_JITTER - 1 < 2 ^ 48 ->
  generate_flow_record t w = Ok (c, s) w' ->
  exists bc bs, to_bytes c = inr bc /\ to_bytes s = inr bs
    /\ length bc = (49 + length sid)%nat /\ length bs = (49 + length sid)%nat.
Proof.
  intros Hrt Hsl Hsid Ht0 Ht1 E.
  pose proof (generate_flow_record_ranges_post t w (c, s) w' E) as Hr.
  pose proof (generate_flow_record_mirror_post t w (c, s) w' E) as Hm.
  apply generate_flow_record_sources_Ok in E
    as ((key & r & _ & Hin & Hip & Hnh & Hif & Hsub & Has) & Hdst & Hsc & Hss & _).
  cbv zeta in Hr, Hm. cbn [fst snd] in Hr, Hm.
  rewrite List.Forall_forall in Hrt, Hsl.
  specialize (Hrt _ Hin). specialize (Hsl _ Hdst). cbn [snd] in Hrt.
  unfold route_fits in Hrt. rewrite Hnh, Hif in Hrt.
  unfold SERVER_PORT, EPHEMERAL_PORTS, SERVER_LATENCY, MAX_JITTER, INTERNAL_ASN,
    INTERNAL_SUBNET, INTERNAL_IFINDEX, MIN_HEAVY_PACKET_BYTES, MAX_HEAVY_PACKET_BYTES,
    MIN_LIGHT_PACKET_BYTES, MAX_LIGHT_PACKET_BYTES in *.
  cbn [fst snd ni_ifindex In] in *.
  assert (0 <= dPkts c <= 20000 /\ 0 <= dPkts s <= 20000)
    by (destruct Hr as (Hoct & Hpc & Hps & _); rewrite Hpc, Hps; split;
        (split; [apply Z.div_pos|apply Z.div_le_upper_bound]; lia)).
  assert (Hfc : fits_widths c).
  { unfold fits_widths, binary_int_fields.
    rewrite List.Forall_forall. intros vn Hvn. cbn [In] in Hvn.
    repeat destruct Hvn as [<-|Hvn]; [..|contradiction]; simpl; lia. }
  assert (Hfs : fits_widths s).
  { unfold fits_widths, binary_int_fields.
    rewrite List.Forall_forall. intros vn Hvn. cbn [In] in Hvn.
    repeat destruct Hvn as [<-|Hvn]; [..|contradiction]; simpl; lia. }
  rewrite <- Hsc in Hsid.
  destruct (to_bytes_fits_ok c sid Hsid Hfc) as (bc & Ec & Lc).
  rewrite Hsc, <- Hss in Hsid.
  destruct (to_bytes_fits_ok s sid Hsid Hfs) as (bs & Es & Ls).
  exists bc, bs. auto.
Qed.

(** The drawn quantities of a generated pair: one side carries a heavy
    transfer and the other a light one, packets are bytes over 1200, both
    start times lie in the minute before the tick, the client port is
    ephemeral and the server port one of [SERVER_PORT], and the server
    record is stamped [SERVER_LATENCY] plus a jitter below [MAX_JITTER]
    after the tick. *)
Lemma generate_flow_record_ranges (t : Z) (w w' : W) (c s : FlowRecord) :
  generate_flow_record t w = Ok (c, s) w' ->
  ((MIN_HEAVY_PACKET_BYTES <= dOctets c <= MAX_HEAVY_PACKET_BYTES
    /\ MIN_LIGHT_PACKET_BYTES <= dOctets s <= MAX_LIGHT_PACKET_BYTES)
   \/ (MIN_LIGHT_PACKET_BYTES <= dOctets c <= MAX_LIGHT_PACKET_BYTES
    /\ MIN_HEAVY_PACKET_BYTES <= dOctets s <= MAX_HEAVY_PACKET_BYTES))
  /\ dPkts c = dOctets c / 1200 /\ dPkts s = dOctets s / 1200
  /\ t - 60000 <= first c <= t - 1 /\ t - 60000 <= first s <= t - 1
  /\ fst EPHEMERAL_PORTS <= srcport c <= snd EPHEMERAL_PORTS
  /\ In (dstport c) SERVER_PORT
  /\ timestamp c = t
  /\ t + SERVER_LATENCY <= timestamp s <= t + SERVER_LATENCY + MAX_JITTER - 1.
Proof. intros E. exact (generate_flow_record_ranges_post t w (c, s) w' E). Qed.

(** Where the fields of a generated pair come from: the client address
    lies in the range of a route of [route_table] whose next hop, ifindex,
    subnet and ASN the pair carries; the server address is in
    [server_list]; the system id is the generator's; only the random source
    of the state changes. *)
Lemma generate_flow_record_sources (t : Z) (w w' : W) (c s : FlowRecord) :
  generate_flow_record t w = Ok (c, s) w' ->
  (exists key r, dict_get (route_table w) key = Some r /\ In (key, r) (route_table w)
     /\ ip_range_start r <= srcaddr c < ip_range_end r
     /\ next_hop r = Some (nexthop s) /\ ifindex r = Some (input c)
     /\ src_mask c = subnet_bits r /\ src_as c = asn r)
  /\ In (dstaddr c) (server_list w)
  /\ system_id c = self_system_id w /\ system_id s = self_system_id w
  /\ exists g, w' = set_rng g w.
Proof. exact (generate_flow_record_sources_Ok t w w' c s). Qed.

End WithRange2.

End MoreMethods.

Lemma keeps_cfg_bind {RS A B} (m : M (World RS) A) (k : A -> M (World RS) B) :
  keeps_cfg m -> (forall a, keeps_cfg (k a)) -> keeps_cfg (bind m k).
Proof.
  intros Hm Hk w. specialize (Hm w). unfold bind.
  destruct (m w) as [a w1|e w1]; cbn in *; [rewrite Hk|]; exact Hm.
Qed.

Lemma keeps_cfg_ret {RS A} (a : A) : keeps_cfg (RS:=RS) (ret a).
Proof. intros w; reflexivity. Qed.

Lemma keeps_cfg_raise {RS A} (e : exn) : keeps_cfg (RS:=RS) (A:=A) (raise e).
Proof. intros w; reflexivity. Qed.

Lemma keeps_cfg_rng_only {RS A} (m : M (World RS) A) : rng_only m -> keeps_cfg m.
Proof. intros Hm w. destruct (Hm w) as [g ->]. reflexivity. Qed.

Lemma keeps_cfg_remap_err {RS A} (e : exn) (m : M (World RS) A) :
  keeps_cfg m -> keeps_cfg (remap_err e m).
Proof. intros Hm w. specialize (Hm w). unfold remap_err. destruct (m w); exact Hm. Qed.

Section KeepsCfg.
Context {RS : Type} `{Rng RS}.
#[local] Abbreviation W := (World RS).

Lemma keeps_cfg_say (e : event) : keeps_cfg (RS:=RS) (say e).
Proof. intros w. reflexivity. Qed.

Lemma keeps_cfg_tick (fpm : Z) (L : Loop) : keeps_cfg (tick fpm L).
Proof.
  unfold tick. apply keeps_cfg_bind; [apply keeps_cfg_rng_only, fill_ms_rng_only|intros fb].
  apply keeps_cfg_bind; [intros w; reflexivity|intros _]. apply keeps_cfg_ret.
Qed.

Lemma keeps_cfg_ticks (n : nat) (fpm : Z) (L : Loop) : keeps_cfg (ticks n fpm L).
Proof.
  revert L; induction n as [|n IH]; intros L; cbn [ticks];
    [apply keeps_cfg_ret|apply keeps_cfg_bind; [apply keeps_cfg_tick|exact IH]].
Qed.

Lemma keeps_cfg_sample_segments (n : nat) (R : Z) (raw : list FlowRecord) (a b m : Z) :
  keeps_cfg (sample_segments n R raw a b m).
Proof.
  revert a b m; induction n as [|n IH]; intros a b m; cbn [sample_segments];
    [apply keeps_cfg_ret|].
  apply keeps_cfg_bind; [apply keeps_cfg_rng_only, rng_only_randrange|intros v].
  apply keeps_cfg_bind; [apply keeps_cfg_rng_only, rng_only_lift|intros row].
  apply keeps_cfg_bind; [intros w; reflexivity|intros _]. apply IH.
Qed.

Lemma keeps_cfg_gen_loop (fuel : nat) (ftm fpm R segments fps : Z) (L : Loop) :
  keeps_cfg (gen_loop fuel ftm fpm R segments fps L).
Proof.
  revert L; induction fuel as [|fuel IH]; intros L; cbn [gen_loop];
    (destruct (_ <? _); [|apply keeps_cfg_ret]); [apply keeps_cfg_raise|].
  apply keeps_cfg_bind; [apply keeps_cfg_ticks|intros L1].
  apply keeps_cfg_bind; [apply keeps_cfg_sample_segments|intros made].
  apply keeps_cfg_bind; [apply keeps_cfg_say|intros _]. apply IH.
Qed.

(** [generate_data] only reads the set-up of the generator: whether it
    returns or raises, the ASN table, the peering interfaces, the route
    table, the server list and the system id are those it started with. *)
Lemma generate_data_keeps_setup (fuel : nat) (ftm fpm R : Z) (w : W) :
  let w' := state_of (generate_data fuel ftm fpm R w) in
  asn_table w' = asn_table w /\ peering w' = peering w /\ route_table w' = route_table w
  /\ server_list w' = server_list w /\ self_system_id w' = self_system_id w.
Proof.
  cbv zeta.
  assert (Hk : keeps_cfg (generate_data (H:=H) fuel ftm fpm R)).
  { unfold generate_data. apply keeps_cfg_bind; [|intros; apply keeps_cfg_ret].
    unfold generate_data_run. cbv zeta. destruct (R =? 0); [apply keeps_cfg_raise|].
    apply keeps_cfg_bind; [apply keeps_cfg_say|intros _].
    apply keeps_cfg_bind; [intros w0; reflexivity|intros _].
    apply keeps_cfg_bind;
      [apply keeps_cfg_remap_err, keeps_cfg_rng_only, rng_only_generate_flow_record|intros _].
    apply keeps_cfg_bind; [apply keeps_cfg_say|intros _].
    apply keeps_cfg_bind; [apply keeps_cfg_say|intros _].
    apply keeps_cfg_gen_loop. }
  specialize (Hk w). unfold world_cfg in Hk. injection Hk as H1 H2 H3 H4 H5. auto.
Qed.

Lemma dict_set_nonempty {V} (d : dict V) (k : Z) (v : V) : dict_set d k v <> [].
Proof.
  unfold dict_set. destruct (existsb _ d) eqn:E.
  - destruct d; [discriminate|]. discriminate.
  - destruct d; discriminate.
Qed.

Lemma select_routes_nonempty (xs : list Z) (k : Z) (st : list Z) (nt r : dict ASNRoute) (w w' : W) :
  select_routes xs k st nt w = Ok r w' -> xs <> [] \/ nt <> [] -> r <> [].
Proof.
  revert nt w; induction xs as [|x xs IH]; intros nt w E Hne; cbn [select_routes] in E.
  - unfold ret in E. injection E as <- _. destruct Hne; [congruence|assumption].
  - inv_binds E. cbv beta zeta in E. inv_binds E.
    apply (IH _ _ E). right. apply dict_set_nonempty.
Qed.

Lemma assign_next_hops_intf (k : Z) (ks : list Z) (intf : option NetworkInterface)
  (d r : dict ASNRoute) (w w' : W) :
  assign_next_hops (k :: ks) intf d w = Ok r w' -> exists li, intf = Some li.
Proof.
  intros E. cbn [assign_next_hops] in E. inv_binds E.
  apply lift_Ok_inv in E4 as [Eli _]. destruct intf as [li|]; [eauto|discriminate].
Qed.

Lemma build_server_ip_table_Ok (from_ip to_ip : string) (tbl : list Z) (w w' : W) :
  build_server_ip_table from_ip to_ip w = Ok tbl w' -> tbl <> [] /\ w' = set_server_list tbl w.
Proof.
  intros E. unfold build_server_ip_table in E. inv_binds E.
  repeat match goal with
         | H : lift _ _ = Ok _ _ |- _ => apply lift_Ok_inv in H as [_ ->]
         | H : modify _ _ = Ok _ _ |- _ => unfold modify in H; injection H as _ <-
         end.
  unfold ret in E. injection E as <- <-.
  split; [|reflexivity].
  match goal with |- py_range ?a ?b <> [] => assert (Hab : a < b) end.
  { match goal with |- context [?x >? ?y] => destruct (Z.gtb_spec x y) end; cbn [fst snd]; lia. }
  unfold py_range. destruct (Z.to_nat _) eqn:En; [lia|discriminate].
Qed.

(** [make_route_table] on a non-empty selection gives every route both a
    next hop and an ifindex and keeps its other fields. *)
Lemma make_route_table_complete (asns r : dict ASNRoute) (w w' : W) :
  make_route_table asns w = Ok r w' -> asns <> [] ->
  route_table w' = r /\ dict_keys r = dict_keys asns
  /\ forall k v0, dict_get asns k = Some v0 ->
       exists v, dict_get r k = Some v /\ same_route_data v v0
         /\ next_hop v <> None /\ ifindex v <> None.
Proof.
  intros Hrun Hne. unfold make_route_table in Hrun. inv_binds Hrun.
  unfold get in E. injection E as <- <-.
  unfold modify in E2. injection E2 as <- <-.
  unfold ret in Hrun. injection Hrun as <- <-.
  destruct (dict_keys asns) as [|k0 ks] eqn:Ek;
    [destruct asns; [congruence|discriminate]|].
  destruct (assign_next_hops_intf _ _ _ _ _ _ _ E1) as [li ->].
  pose proof (assign_next_hops_ifindex _ _ _ _ _ _ E1) as Hif.
  apply assign_next_hops_Ok in E1 as (_ & Hk & Hv).
  cbn [route_table set_route_table].
  split; [reflexivity|]. split; [rewrite Hk; exact Ek|].
  intros k v0 Hv0.
  assert (Hin : In k (k0 :: ks)) by (rewrite <- Ek; exact (dict_get_key_In _ _ _ Hv0)).
  destruct (Hv k v0 Hv0) as (v & Ev & Hsame & Hnh & _).
  destruct (Hif k (or_introl Hin)) as (v' & Ev' & Hi).
  rewrite Ev in Ev'. injection Ev' as <-.
  destruct (Hnh Hin) as (ni & nh & _ & _ & Enh).
  exists v. split; [exact Ev|]. split; [exact Hsame|]. split; congruence.
Qed.

Section WithRange3.
Hypothesis randbelow_range : forall (g : RS) (n : Z), 0 < n -> 0 <= fst (randbelow g n) < n.

Lemma random_client_succeeds_get (w : W) :
  route_table w <> [] ->
  (forall key r, dict_get (route_table w) key = Some r ->
     ip_range_start r < ip_range_end r /\ next_hop r <> None /\ ifindex r <> None) ->
  exists c w', random_client w = Ok c w'.
Proof.
  intros Hn Hall. unfold random_client, bind at 1, get.
  destruct (randrange_ok randbelow_range 0 (Z.of_nat (length (route_table w))) w)
    as (i & w1 & Ei & Hi & _).
  { destruct (route_table w); [congruence|cbn; lia]. }
  unfold bind at 1. rewrite Ei.
  destruct (py_index_ok (dict_keys (route_table w)) i) as (key & Ek & _).
  { unfold dict_keys. rewrite length_map. lia. }
  unfold bind at 1. rewrite Ek, lift_inr.
  destruct (dict_get_keys (route_table w) key) as [r Er].
  { exact (py_index_In _ _ _ Ek). }
  unfold bind at 1. rewrite Er. cbn [opt_raise]. rewrite lift_inr.
  destruct (Hall _ _ Er) as (Hlt & Hnh & Hif).
  destruct (randrange_ok randbelow_range (ip_range_start r) (ip_range_end r) w1)
    as (ip & w2 & Eip & _); [exact Hlt|].
  unfold bind at 1. rewrite Eip.
  destruct (next_hop r) as [nh|]; [|congruence].
  destruct (ifindex r) as [ifx|]; [|congruence].
  cbn. eauto.
Qed.

Lemma generate_flow_record_succeeds (t : Z) (w : W) :
  route_table w <> [] ->
  (forall key r, dict_get (route_table w) key = Some r ->
     ip_range_start r < ip_range_end r /\ next_hop r <> None /\ ifindex r <> None) ->
  server_list w <> [] ->
  exists c s w', generate_flow_record t w = Ok (c, s) w'.
Proof.
  intros Hn Hall Hs.
  destruct (random_client_succeeds_get w Hn Hall) as (cl & w1 & E1).
  destruct cl as [[[[ip nh] sub] a] ifx].
  destruct (random_client_Ok randbelow_range w ip nh sub a ifx w1 E1) as [_ [g ->]].
  unfold generate_flow_record. rewrite (bind_ok _ _ _ _ _ E1).
  destruct (random_server_succeeds randbelow_range (set_rng g w) Hs) as (v & w2 & E2).
  rewrite (bind_ok _ _ _ _ _ E2).
  unfold randint.
  repeat match goal with
         | |- exists _ _ _, bind (randrange ?lo ?hi) _ ?w0 = _ =>
             let v := fresh "v" in let w := fresh "w" in let E := fresh "E" in
             let Hv := fresh "Hv" in
             destruct (randrange_ok randbelow_range lo hi w0) as (v & w & E & Hv & _);
             [unfold MIN_HEAVY_PACKET_BYTES, MAX_HEAVY_PACKET_BYTES, MIN_LIGHT_PACKET_BYTES,
                MAX_LIGHT_PACKET_BYTES, EPHEMERAL_PORTS, MAX_JITTER; cbn [fst snd]; lia|];
             rewrite (bind_ok _ _ _ _ _ E)
         | |- exists _ _ _, bind (lift (py_index SERVER_PORT ?i)) _ ?w0 = _ =>
             let x := fresh "x" in let Ex := fresh "Ex" in
             destruct (py_index_ok SERVER_PORT i) as (x & Ex & _);
             [cbn; lia|];
             rewrite Ex, (bind_ok _ _ _ _ _ (lift_inr x w0))
         | |- exists _ _ _, bind get _ ?w0 = _ =>
             rewrite (bind_ok _ _ _ _ _ (eq_refl : get w0 = Ok w0 w0))
         | |- exists _ _ _, bind (lift (opt_raise KeyError (ni_next_hop_i INTERNAL_IFINDEX))) _ ?w0 = _ =>
             rewrite (bind_ok _ _ _ _ _ (lift_inr 167837954 w0))
         | _ => progress cbv zeta
         end.
  eexists _, _, _. reflexivity.
Qed.

(** [generate_flow_record] raises [ValueError] on an empty route table.
    When every route has a non-empty address range, a next hop and an
    ifindex, it raises [ValueError] on an empty server list and succeeds
    on a non-empty one. *)
Lemma generate_flow_record_outcome (t : Z) (w : W) :
  (route_table w = [] -> generate_flow_record t w = Err ValueError w)
  /\ (route_table w <> [] ->
      Forall (fun kr => ip_range_start (snd kr) < ip_range_end (snd kr)
                        /\ next_hop (snd kr) <> None /\ ifindex (snd kr) <> None) (route_table w) ->
      (server_list w = [] -> exists w', generate_flow_record t w = Err ValueError w')
      /\ (server_list w <> [] -> exists c s w', generate_flow_record t w = Ok (c, s) w')).
Proof.
  split.
  - intros Hn. unfold generate_flow_record, bind at 1.
    rewrite (random_client_empty w Hn). reflexivity.
  - intros Hn Hall.
    assert (Hget : forall key r, dict_get (route_table w) key = Some r ->
              ip_range_start r < ip_range_end r /\ next_hop r <> None /\ ifindex r <> None).
    { intros key r Er. apply dict_get_In in Er.
      exact (proj1 (List.Forall_forall _ _) Hall _ Er). }
    split; [|exact (generate_flow_record_succeeds t w Hn Hget)].
    intros Hs.
    destruct (random_client_succeeds_get w Hn Hget) as (cl & w1 & E1).
    destruct cl as [[[[ip nh] sub] a] ifx].
    destruct (random_client_Ok randbelow_range w ip nh sub a ifx w1 E1) as [_ [g ->]].
    exists (set_rng g w). unfold generate_flow_record.
    rewrite (bind_ok _ _ _ _ _ E1). unfold bind at 1.
    rewrite (random_server_empty (set_rng g w) Hs). reflexivity.
Qed.

(** The driver's set-up composes with the generator: when every row of
    the ASN table spans more than three addresses, a successful
    [random_asns] (of at least one ASN), [make_route_table] and
    [build_server_ip_table] leave a state in which [generate_flow_record]
    succeeds. *)
Lemma setup_then_generate (k t : Z) (w w' : W) :
  Forall (fun row => exists lo hi, row_int row 0 = inr lo /\ row_int row 1 = inr hi
                                   /\ lo + 3 < hi) (asn_table w) ->
  1 <= k ->
  setup k w = Ok tt w' ->
  exists c s w'', generate_flow_record t w' = Ok (c, s) w''.
Proof.
  intros Hrows Hk Hrun. unfold setup in Hrun.
  apply bind_Ok_inv in Hrun as (sel & w1 & Esel & Hrun).
  apply bind_Ok_inv in Hrun as (r & w2 & Ert & Hrun).
  apply bind_Ok_inv in Hrun as (tbl & w3 & Etbl & Hrun).
  unfold ret in Hrun. injection Hrun as <-.
  unfold random_asns, bind at 1, get in Esel.
  destruct (_ <? k); [unfold raise in Esel; discriminate|].
  assert (Hsel : sel <> []).
  { apply (select_routes_nonempty _ _ _ _ _ _ _ Esel). left.
    unfold py_range. destruct (Z.to_nat (k - 0)) eqn:En; [lia|discriminate]. }
  apply select_routes_Ok in Esel as (_ & _ & _ & Hsrc).
  apply make_route_table_complete in Ert as (Hrt & Hkeys & Hv); [|exact Hsel].
  apply build_server_ip_table_Ok in Etbl as [Htbl ->].
  apply generate_flow_record_succeeds; cbn [route_table server_list set_server_list];
    [rewrite Hrt; intros Hr; rewrite Hr in Hkeys; destruct sel; [congruence|discriminate]
    | |exact Htbl].
  rewrite Hrt. intros key v Ev.
  assert (Hkin : In key (dict_keys sel)) by (rewrite <- Hkeys; exact (dict_get_key_In _ _ _ Ev)).
  destruct (dict_get_keys sel key Hkin) as [v0 Ev0].
  destruct (Hv key v0 Ev0) as (v' & Ev' & Hsame & Hnh & Hif).
  rewrite Ev in Ev'. injection Ev' as <-.
  split; [|split; assumption].
  apply dict_get_In in Ev0.
  destruct (Hsrc key v0 Ev0) as [[]|(_ & Hst & Hen & _ & _ & row & Hrow & E0 & E1 & _)].
  destruct (proj1 (List.Forall_forall _ _) Hrows row Hrow) as (lo & hi & Elo & Ehi & Hlh).
  destruct Hsame as (_ & _ & _ & Hs1 & He1 & _).
  rewrite E0 in Elo. rewrite E1 in Ehi. injection Elo as <-. injection Ehi as <-.
  rewrite Hs1, He1, Hst, Hen. lia.
Qed.

End WithRange3.
End KeepsCfg.

(** ** Witnesses *)

Lemma generate_flow_record_timestamps_witness :
  exists c s w', generate_flow_record 60000 demo_world = Ok (c, s) w'
                 /\ timestamp c < timestamp s.
Proof.
  destruct (generate_flow_record 60000 demo_world) as [[c s] w'|e w'] eqn:E;
    [|vm_compute in E; discriminate].
  exists c, s, w'. split; [reflexivity|].
  exact (proj2 (proj2 (@generate_flow_record_timestamps unit min_rng
           (fun g n Hn => ltac:(cbn; lia)) 60000 demo_world w' c s E))).
Defined.

Lemma generate_data_raw_sorted_witness :
  (1000 <> 0) /\
  Sorted Z.le (map timestamp (raw_csv (state_of (generate_data 2 1 1 1000 demo_world)))).
Proof. split; [lia|]. apply generate_data_raw_sorted. lia. Defined.

Lemma random_asns_error_iff_witness :
  Forall row_wf (asn_table (fresh_world tt))
  /\ random_asns 5 (fresh_world tt) = Err ValueError (fresh_world tt).
Proof.
  assert (Hwf : Forall row_wf (asn_table (fresh_world tt))).
  { repeat constructor; try (cbn; lia); eexists; reflexivity. }
  split; [exact Hwf|].
  apply (proj2 (@random_asns_error_iff unit min_rng (fun g n Hn => ltac:(cbn; lia)) 5 _ Hwf)).
  reflexivity.
Defined.

Lemma make_route_table_ifindex_14_witness :
  peering demo_selected_world = DEFAULT_PEERING_INTERFACES /\
  exists r w' v, make_route_table demo_selected demo_selected_world = Ok r w'
    /\ dict_get r 13335 = Some v /\ ifindex v = Some 14 /\ next_hop v = Some 167774722.
Proof.
  assert (Hp : peering demo_selected_world = DEFAULT_PEERING_INTERFACES) by reflexivity.
  split; [exact Hp|].
  destruct (make_route_table demo_selected demo_selected_world) as [r w'|e w'] eqn:E;
    [|vm_compute in E; discriminate].
  destruct (make_route_table_ifindex_14 _ _ _ _ Hp E 13335 ltac:(vm_compute; auto))
    as (v & Hv & Hi).
  exists r, w', v. split; [reflexivity|]. split; [exact Hv|]. split; [exact Hi|].
  vm_compute in E. injection E as <- _. vm_compute in Hv. injection Hv as <-. reflexivity.
Defined.

Lemma sample_window_ranges_witness :
  exists m w', sample_window 2 2 demo_raw 0 demo_world = Ok m w'
    /\ m = 2 /\ segment_lo 2 1 = 2 /\ segment_hi 2 1 = 2
    /\ sampled_csv w' = sampled_csv demo_world ++ [nth 0 demo_raw (example_flow "");
                                                  nth 2 demo_raw (example_flow "")].
Proof.
  destruct (sample_window 2 2 demo_raw 0 demo_world) as [m w'|e w'] eqn:E;
    [|vm_compute in E; discriminate].
  exists m, w'. split; [reflexivity|].
  destruct (@sample_window_ranges unit min_rng (fun g n Hn => ltac:(cbn; lia))
              2 2 demo_raw 0 m demo_world w' E) as [Hm _].
  split; [exact Hm|]. split; [reflexivity|]. split; [reflexivity|].
  vm_compute in E. injection E as _ <-. reflexivity.
Defined.

Lemma clean_asns_filter_witness :
  exists rows' dropped logs, clean_asns sample_ip2asn = inr (rows', dropped, logs)
    /\ dropped = 2 /\ Z.of_nat (length rows') + dropped = Z.of_nat (length sample_ip2asn)
    /\ Z.of_nat (length logs) = dropped.
Proof.
  destruct (clean_asns sample_ip2asn) as [e|[[r d] l]] eqn:E; [vm_compute in E; discriminate|].
  exists r, d, l. split; [reflexivity|].
  destruct (clean_asns_filter sample_ip2asn r d l E) as (_ & Hlen & Hlogs).
  split; [vm_compute in E; injection E as _ <- _; reflexivity|].
  split; [exact Hlen|exact Hlogs].
Defined.

Lemma random_asns_Ok_witness :
  exists r w', random_asns 2 (fresh_world tt) = Ok r w'
    /\ (length (asn_table w') + 2 = length (asn_table (fresh_world tt)))%nat
    /\ (length r <= 2)%nat.
Proof.
  destruct (random_asns 2 (fresh_world tt)) as [r w'|e w'] eqn:E;
    [|vm_compute in E; discriminate].
  exists r, w'. split; [reflexivity|].
  destruct (random_asns_Ok 2 _ _ _ E) as (_ & Hlen & Hr & _).
  split; [exact Hlen|exact Hr].
Defined.

Lemma make_route_table_Ok_witness :
  exists r w', make_route_table demo_selected demo_selected_world = Ok r w'
    /\ route_table w' = r /\ dict_keys r = dict_keys demo_selected.
Proof.
  destruct (make_route_table demo_selected demo_selected_world) as [r w'|e w'] eqn:E;
    [|vm_compute in E; discriminate].
  exists r, w'. split; [reflexivity|].
  destruct (make_route_table_Ok _ _ _ _ E) as (Hrt & Hk & _).
  split; [exact Hrt|exact Hk].
Defined.


Lemma random_server_spec_witness :
  exists v w', random_server demo_world = Ok v w' /\ In v (server_list demo_world).
Proof.
  destruct (@random_server_spec unit min_rng (fun g n Hn => ltac:(cbn; lia)) demo_world)
    as (_ & Hok & Hex).
  destruct (Hex ltac:(vm_compute; discriminate)) as (v & w' & E).
  exists v, w'. split; [exact E|exact (proj1 (Hok v w' E))].
Defined.

Lemma random_client_spec_witness :
  exists ip nh sub a ifx w', random_client demo_world = Ok (ip, nh, sub, a, ifx) w'
    /\ exists key r, dict_get (route_table demo_world) key = Some r
         /\ ip_range_start r <= ip < ip_range_end r.
Proof.
  destruct (random_client demo_world) as [[[[[ip nh] sub] a] ifx] w'|e w'] eqn:E;
    [|vm_compute in E; discriminate].
  exists ip, nh, sub, a, ifx, w'. split; [reflexivity|].
  destruct (proj1 (proj2 (@random_client_spec unit min_rng (fun g n Hn => ltac:(cbn; lia))
              demo_world)) ip nh sub a ifx w' E) as [(key & r & Hr & _ & Hip & _) _].
  exists key, r. split; [exact Hr|exact Hip].
Defined.

Lemma generate_flow_record_mirror_witness :
  exists c s w', generate_flow_record 60000 demo_world = Ok (c, s) w'
    /\ srcaddr s = dstaddr c /\ dstaddr s = srcaddr c.
Proof.
  destruct (generate_flow_record 60000 demo_world) as [[c s] w'|e w'] eqn:E;
    [|vm_compute in E; discriminate].
  exists c, s, w'. split; [reflexivity|].
  destruct (generate_flow_record_mirror 60000 _ _ _ _ E) as (H1 & H2 & _).
  split; [exact H1|exact H2].
Defined.

Lemma generate_flow_record_ranges_witness :
  exists c s w', generate_flow_record 60000 demo_world = Ok (c, s) w'
    /\ 0 <= first c <= 59999 /\ timestamp c = 60000.
Proof.
  destruct (generate_flow_record 60000 demo_world) as [[c s] w'|e w'] eqn:E;
    [|vm_compute in E; discriminate].
  exists c, s, w'. split; [reflexivity|].
  destruct (@generate_flow_record_ranges unit min_rng (fun g n Hn => ltac:(cbn; lia))
              60000 _ _ _ _ E) as (_ & _ & _ & Hf & _ & _ & _ & Ht & _).
  split; [lia|exact Ht].
Defined.

Lemma generate_flow_record_sources_witness :
  exists c s w', generate_flow_record 60000 demo_world = Ok (c, s) w'
    /\ In (dstaddr c) (server_list demo_world)
    /\ system_id c = self_system_id demo_world.
Proof.
  destruct (generate_flow_record 60000 demo_world) as [[c s] w'|e w'] eqn:E;
    [|vm_compute in E; discriminate].
  exists c, s, w'. split; [reflexivity|].
  destruct (@generate_flow_record_sources unit min_rng (fun g n Hn => ltac:(cbn; lia))
              60000 _ _ _ _ E) as (_ & Hd & Hsc & _).
  split; [exact Hd|exact Hsc].
Defined.

Lemma generate_flow_record_serialises_witness :
  exists c s w' sid, generate_flow_record 60000 demo_world = Ok (c, s) w'
    /\ bytes_fromhex (self_system_id demo_world) = inr sid
    /\ exists bc bs, to_bytes c = inr bc /\ to_bytes s = inr bs
         /\ length bc = (49 + length sid)%nat.
Proof.
  destruct (generate_flow_record 60000 demo_world) as [[c s] w'|e w'] eqn:E;
    [|vm_compute in E; discriminate].
  destruct (bytes_fromhex (self_system_id demo_world)) as [e|sid] eqn:Hsid;
    [vm_compute in Hsid; discriminate|].
  exists c, s, w', sid. split; [reflexivity|]. split; [reflexivity|].
  assert (Hrt : Forall (fun kr => route_fits (snd kr)) (route_table demo_world)).
  { apply List.Forall_forall. intros kr Hin.
    vm_compute in Hin. repeat destruct Hin as [<-|Hin]; [..|contradiction];
      unfold route_fits; cbn; lia. }
  assert (Hsl : Forall (fun a => 0 <= a < 2 ^ 32) (server_list demo_world)).
  { apply List.Forall_forall. intros a Ha.
    assert (Hb : forallb (fun a => (0 <=? a) && (a <? 2 ^ 32)) (server_list demo_world) = true)
      by (vm_compute; reflexivity).
    rewrite forallb_forall in Hb. specialize (Hb a Ha).
    apply andb_true_iff in Hb as [Hb1 Hb2]. lia. }
  destruct (@generate_flow_record_serialises unit min_rng (fun g n Hn => ltac:(cbn; lia))
              60000 _ _ _ _ sid Hrt Hsl Hsid ltac:(lia) ltac:(vm_compute; reflexivity) E)
    as (bc & bs & Ec & Es & Lc & _).
  exists bc, bs. split; [exact Ec|]. split; [exact Es|exact Lc].
Defined.

Lemma generate_flow_record_outcome_witness :
  exists c s w', generate_flow_record 60000 demo_world = Ok (c, s) w'.
Proof.
  assert (Hall : Forall (fun kr => ip_range_start (snd kr) < ip_range_end (snd kr)
                   /\ next_hop (snd kr) <> None /\ ifindex (snd kr) <> None)
                   (route_table demo_world)).
  { apply List.Forall_forall. intros kr Hin.
    vm_compute in Hin. repeat destruct Hin as [<-|Hin]; [..|contradiction];
      cbn [snd ip_range_start ip_range_end next_hop ifindex];
      (split; [lia|split; discriminate]). }
  exact (proj2 (proj2 (@generate_flow_record_outcome unit min_rng
           (fun g n Hn => ltac:(cbn; lia)) 60000 demo_world)
           ltac:(vm_compute; discriminate) Hall) ltac:(vm_compute; discriminate)).
Defined.

Lemma setup_then_generate_witness :
  exists w' c s w'', setup 2 (fresh_world tt) = Ok tt w'
    /\ generate_flow_record 60000 w' = Ok (c, s) w''.
Proof.
  destruct (setup 2 (fresh_world tt)) as [[] w'|e w'] eqn:E; [|vm_compute in E; discriminate].
  assert (Hrows : Forall (fun row => exists lo hi, row_int row 0 = inr lo
                    /\ row_int row 1 = inr hi /\ lo + 3 < hi) (asn_table (fresh_world tt))).
  { apply List.Forall_forall. intros row Hin. cbn in Hin.
    repeat destruct Hin as [<-|Hin]; [..|contradiction];
      eexists _, _; (split; [vm_compute; reflexivity|split; [vm_compute; reflexivity|]]);
      vm_compute; reflexivity. }
  destruct (@setup_then_generate unit min_rng (fun g n Hn => ltac:(cbn; lia))
              2 60000 _ _ Hrows ltac:(lia) E) as (c & s & w'' & E').
  exists w', c, s, w''. split; [reflexivity|exact E'].
Defined.



